(** * libremidi_flutter: device presence and identity tracking

    A shallow embedding of the port-identity, snapshot/diff and hotplug
    dispatch code of the plugin:

    - [macos/Classes/libremidi_flutter.cpp]: the C-callable observer API
      ([LrmObserver], [fill_port_info], [fnv1a_hash], [port_key],
      [handleMIDINotification], [lrm_observer_get_input], ...);
    - [src/libremidi/backends/android/observer.hpp]: the Android observer
      ([get_input_ports], [diff_added], [diff_removed], [on_device_added],
      [on_device_removed]);
    - [src/android_helpers.cpp]: the process-wide hotplug slot
      ([set_hotplug_observer], [clear_hotplug_observer],
      [onDeviceAddedNative], [onDeviceRemovedNative]), the device list
      ([refresh_midi_devices], [port_name], ...) and [get_thread_env];
    - [src/jni_shim.cpp]: [init_jni_functions], [JNI_GetCreatedJavaVMs],
      [libremidi_find_class];
    - [libremidi/backends/winuwp/helpers.hpp]:
      [winrt_id_to_pnp_instance_id], [cfgmgr_get_usb_parent_info],
      [get_device_info_from_port_id].

    Conventions.  A [std::string] is a [string] (a list of 8-bit chars);
    fixed-width integers are [Z] with their wrap-around written out;
    pointers and function pointers are [Z] addresses with [0] for
    [nullptr]; a [std::set<std::string>] is a [gset string]; the objects
    reachable through raw handles live in a [gmap Z _] heap.  Callbacks
    into the host are recorded as a trace of calls. *)

From Stdlib Require Import ZArith String Ascii List Lia.
From stdpp Require Import base gmap strings list pretty.

Local Open Scope Z_scope.

(* ===================================================================== *)
(** ** Fixed-width integers *)
(* ===================================================================== *)

Module Int.

Definition u64 (z : Z) : Z := z mod 2 ^ 64.
Definition u8 (z : Z) : Z := z mod 2 ^ 8.

(** [static_cast<int32_t>] of a [size_t]: two's complement wrap. *)
Definition to_int32 (z : Z) : Z := (z + 2 ^ 31) mod 2 ^ 32 - 2 ^ 31.

(** [static_cast<uint64_t>(c)] for a [char c].  On the Apple targets
    this file is built for, plain [char] is signed, so the bytes
    128..255 are sign-extended. *)
Definition char_to_u64 (c : ascii) : Z :=
  let n := Z.of_N (N_of_ascii c) in
  if n <? 128 then n else u64 (n - 256).

End Int.

(* ===================================================================== *)
(** ** Port descriptors *)
(* ===================================================================== *)

Module Port.

(** Transport types, [libremidi_flutter.h] ("matching
    libremidi::transport_type"). *)
Definition LRM_TRANSPORT_UNKNOWN   : Z := 0.
Definition LRM_TRANSPORT_SOFTWARE  : Z := 2.
Definition LRM_TRANSPORT_LOOPBACK  : Z := 4.
Definition LRM_TRANSPORT_HARDWARE  : Z := 8.
Definition LRM_TRANSPORT_USB       : Z := 16.
Definition LRM_TRANSPORT_BLUETOOTH : Z := 32.
Definition LRM_TRANSPORT_PCI       : Z := 64.
Definition LRM_TRANSPORT_NETWORK   : Z := 128.

(** Modelled from the spec: [libremidi::port_information] (the common
    base of [input_port] and [output_port]) is declared by the
    third-party library; the record has the fields the plugin reads and
    writes.  [client] and [port] are the native handles, [type] is the
    [transport_type] bit set (an enum over [uint8_t]). *)
Record port_information : Type := mk_port {
  client       : Z;
  port         : Z;
  manufacturer : string;
  device_name  : string;
  port_name    : string;
  display_name : string;
  product      : string;
  serial       : string;
  type         : Z
}.

#[export] Instance port_information_eq_dec : EqDecision port_information.
Proof. solve_decision. Defined.

(** The four identifying fields of a descriptor. *)
Definition ident_fields (p : port_information) : string * string * string * string :=
  (port_name p, manufacturer p, product p, serial p).

End Port.

Import Port.

(* ===================================================================== *)
(** ** Stable identity: [port_key] and [fnv1a_hash] *)
(* ===================================================================== *)

Module Identity.

Definition FNV_offset_basis : Z := 14695981039346656037.
Definition FNV_prime : Z := 1099511628211.

(** One iteration of the loop body: [hash ^= c; hash *= prime]. *)
Definition fnv1a_step (hash : Z) (c : ascii) : Z :=
  Int.u64 (Z.lxor hash (Int.char_to_u64 c) * FNV_prime).

Fixpoint fnv1a_loop (hash : Z) (str : string) : Z :=
  match str with
  | EmptyString => hash
  | String c rest => fnv1a_loop (fnv1a_step hash c) rest
  end.

Definition fnv1a_hash (str : string) : Z := fnv1a_loop FNV_offset_basis str.

Definition sep : string := "|".

(** [port.port_name + "|" + port.manufacturer + "|" + port.product + "|"
    + port.serial]; [operator+] associates to the left. *)
Definition port_key (p : port_information) : string :=
  (((((port_name p +:+ sep) +:+ manufacturer p) +:+ sep) +:+ product p) +:+ sep)
    +:+ serial p.

(** The id written to [LrmPortInfo::stable_id]. *)
Definition stable_id (p : port_information) : Z := fnv1a_hash (port_key p).

(** A field value is legal when the delimiter does not occur in it. *)
Fixpoint has_sep (s : string) : bool :=
  match s with
  | EmptyString => false
  | String c rest => if Ascii.eqb c "|" then true else has_sep rest
  end.

Definition legal_fields (p : port_information) : Prop :=
  has_sep (port_name p) = false /\ has_sep (manufacturer p) = false /\
  has_sep (product p) = false /\ has_sep (serial p) = false.

End Identity.

Import Identity.

(* ===================================================================== *)
(** ** The C-callable observer API ([libremidi_flutter.cpp]) *)
(* ===================================================================== *)

(** The result of running code that may dereference a raw pointer:
    either it returns, or the pointer did not designate a live object and
    the behaviour is undefined. *)
Inductive outcome (A : Type) : Type :=
  | Returns (a : A)
  | Undefined.
Arguments Returns {A} a.
Arguments Undefined {A}.

Module Ffi.

(** Error codes, [libremidi_flutter.h]. *)
Definition LRM_OK            : Z := 0.
Definition LRM_ERR_INVALID   : Z := -1.
Definition LRM_ERR_NOT_FOUND : Z := -2.

(** Event types of the hotplug callback. *)
Definition LRM_EVENT_INPUT_ADDED    : Z := 0.
Definition LRM_EVENT_INPUT_REMOVED  : Z := 1.
Definition LRM_EVENT_OUTPUT_ADDED   : Z := 2.
Definition LRM_EVENT_OUTPUT_REMOVED : Z := 3.

(** [LrmPortInfo]; a [char] buffer is represented by the C string it
    holds. *)
Record LrmPortInfo : Type := mk_info {
  info_stable_id      : Z;
  info_port_id        : Z;
  info_client_handle  : Z;
  info_index          : Z;
  info_display_name   : string;
  info_port_name      : string;
  info_device_name    : string;
  info_manufacturer   : string;
  info_product        : string;
  info_serial         : string;
  info_transport_type : Z;
  info_is_input       : bool;
  info_is_virtual     : bool
}.

(** [src.c_str()] read as a C string: the chars before the first NUL. *)
Fixpoint c_str (s : string) : string :=
  match s with
  | EmptyString => EmptyString
  | String c rest => if Ascii.eqb c zero then EmptyString else String c (c_str rest)
  end.

Fixpoint take_chars (n : nat) (s : string) : string :=
  match n, s with
  | S n', String c rest => String c (take_chars n' rest)
  | _, _ => EmptyString
  end.

(** [strncpy(dest, src.c_str(), dest_size - 1); dest[dest_size - 1] = 0],
    for a buffer of at least one char ([dest_size] is the [sizeof] of a
    [char] array at every call: 256 or 128).  For [dest_size = 0] the
    source's [dest_size - 1] wraps around in [size_t]; that case is
    outside this definition. *)
Definition safe_strcpy (dest_size : nat) (src : string) : string :=
  take_chars (dest_size - 1) (c_str src).

Definition is_virtual_type (t : Z) : bool :=
  (t =? LRM_TRANSPORT_SOFTWARE) || (t =? LRM_TRANSPORT_LOOPBACK).

Definition fill_port_info (p : port_information) (index : Z) (is_input : bool)
  : LrmPortInfo :=
  {| info_port_id        := Int.u64 (port p);
     info_client_handle  := Int.u64 (client p);
     info_index          := index;
     info_stable_id      := fnv1a_hash (port_key p);
     info_display_name   := safe_strcpy 256 (display_name p);
     info_port_name      := safe_strcpy 256 (port_name p);
     info_device_name    := safe_strcpy 256 (device_name p);
     info_manufacturer   := safe_strcpy 256 (manufacturer p);
     info_product        := safe_strcpy 256 (product p);
     info_serial         := safe_strcpy 128 (serial p);
     info_transport_type := Int.u8 (type p);
     info_is_input       := is_input;
     info_is_virtual     := is_virtual_type (type p) |}.

(** What the wrapped [libremidi::observer] reports when asked now. *)
Record backend : Type := mk_backend {
  get_input_ports  : list port_information;
  get_output_ports : list port_information
}.

(** [struct LrmObserver].  [observer] tells whether the [unique_ptr] is
    non-null; [hotplug_callback] is a function pointer. *)
Record LrmObserver : Type := mk_observer {
  observer         : bool;
  input_ports      : list port_information;
  output_ports     : list port_information;
  hotplug_callback : Z;
  hotplug_context  : Z;
  midiClient       : Z
}.

(** One invocation [hotplug_callback(hotplug_context, eventType)]. *)
Record hotplug_call : Type := mk_call {
  call_fn      : Z;
  call_context : Z;
  call_event   : Z
}.

Definition refreshInternal (o : LrmObserver) (sys : backend) : LrmObserver :=
  if observer o then
    {| observer := observer o;
       input_ports := get_input_ports sys;
       output_ports := get_output_ports sys;
       hotplug_callback := hotplug_callback o;
       hotplug_context := hotplug_context o;
       midiClient := midiClient o |}
  else o.

Definition refresh (o : LrmObserver) (sys : backend) : LrmObserver :=
  refreshInternal o sys.

Definition notifyHotplug (o : LrmObserver) (eventType : Z) : list hotplug_call :=
  if hotplug_callback o =? 0 then []
  else [mk_call (hotplug_callback o) (hotplug_context o) eventType].

(** The constructor: the client is created only when a callback was
    given ([client] is what [MIDIClientCreateWithBlock] stored, [0] on
    failure); the libremidi observer is always created, then the port
    lists are read once. *)
Definition LrmObserver_new (callback context client : Z) (sys : backend)
  : LrmObserver :=
  refreshInternal
    {| observer := true;
       input_ports := [];
       output_ports := [];
       hotplug_callback := callback;
       hotplug_context := context;
       midiClient := if callback =? 0 then 0 else client |}
    sys.

(** The destructor body: the object as it is left just before its
    storage is released. *)
Definition LrmObserver_dtor (o : LrmObserver) : LrmObserver :=
  {| observer := observer o;
     input_ports := input_ports o;
     output_ports := output_ports o;
     hotplug_callback := 0;
     hotplug_context := hotplug_context o;
     midiClient := 0 |}.

Inductive MIDINotificationMessageID : Type :=
  | kMIDIMsgSetupChanged
  | kMIDIMsgObjectAdded
  | kMIDIMsgObjectRemoved
  | kMIDIMsgOther (raw : Z).

Inductive MIDIObjectType : Type :=
  | kMIDIObjectType_Source
  | kMIDIObjectType_Destination
  | kMIDIObjectType_OtherObject (raw : Z).

Record MIDINotification : Type := mk_notification {
  messageID : MIDINotificationMessageID;
  childType : MIDIObjectType
}.

Definition handleMIDINotification (obs : LrmObserver) (sys : backend)
    (notification : MIDINotification) : LrmObserver * list hotplug_call :=
  match messageID notification with
  | kMIDIMsgObjectAdded =>
      let obs' := refreshInternal obs sys in
      match childType notification with
      | kMIDIObjectType_Source => (obs', notifyHotplug obs' LRM_EVENT_INPUT_ADDED)
      | kMIDIObjectType_Destination => (obs', notifyHotplug obs' LRM_EVENT_OUTPUT_ADDED)
      | kMIDIObjectType_OtherObject _ => (obs', [])
      end
  | kMIDIMsgObjectRemoved =>
      let obs' := refreshInternal obs sys in
      match childType notification with
      | kMIDIObjectType_Source => (obs', notifyHotplug obs' LRM_EVENT_INPUT_REMOVED)
      | kMIDIObjectType_Destination => (obs', notifyHotplug obs' LRM_EVENT_OUTPUT_REMOVED)
      | kMIDIObjectType_OtherObject _ => (obs', [])
      end
  | kMIDIMsgSetupChanged =>
      let obs' := refreshInternal obs sys in
      (obs', notifyHotplug obs' LRM_EVENT_INPUT_ADDED
               ++ notifyHotplug obs' LRM_EVENT_OUTPUT_ADDED)
  | kMIDIMsgOther _ => (obs, [])
  end.

(** *** Handles

    An [LrmObserver*] handed to the host is an address; [heap] maps the
    addresses of the live observers to their contents. *)

(** [lrm_observer_free]: [delete observer].  Deleting a null pointer
    does nothing; deleting a live object runs the destructor and
    releases the storage; deleting anything else is undefined. *)
Definition lrm_observer_free (heap : gmap Z LrmObserver) (h : Z)
  : outcome (gmap Z LrmObserver) :=
  if h =? 0 then Returns heap
  else match heap !! h with
       | Some _ => Returns (delete h heap)
       | None => Undefined
       end.

Definition lrm_observer_refresh (heap : gmap Z LrmObserver) (h : Z) (sys : backend)
  : outcome (gmap Z LrmObserver) :=
  if h =? 0 then Returns heap
  else match heap !! h with
       | Some o => Returns (<[h := refresh o sys]> heap)
       | None => Undefined
       end.

Definition lrm_observer_get_input_count (heap : gmap Z LrmObserver) (h : Z)
  : outcome Z :=
  if h =? 0 then Returns 0
  else match heap !! h with
       | Some o => Returns (Int.to_int32 (Z.of_nat (length (input_ports o))))
       | None => Undefined
       end.

Definition lrm_observer_get_output_count (heap : gmap Z LrmObserver) (h : Z)
  : outcome Z :=
  if h =? 0 then Returns 0
  else match heap !! h with
       | Some o => Returns (Int.to_int32 (Z.of_nat (length (output_ports o))))
       | None => Undefined
       end.

(** The body shared by [lrm_observer_get_input] and
    [lrm_observer_get_output] once the observer has been read: the
    result code and, on success, the struct written through [info]. *)
Definition get_port (ports : list port_information) (index : Z) (is_input : bool)
  : outcome (Z * option LrmPortInfo) :=
  if (index <? 0) || (index >=? Int.to_int32 (Z.of_nat (length ports)))
  then Returns (LRM_ERR_NOT_FOUND, None)
  else match ports !! Z.to_nat index with
       | Some p => Returns (LRM_OK, Some (fill_port_info p index is_input))
       | None => Undefined
       end.

Definition lrm_observer_get_input (heap : gmap Z LrmObserver) (h : Z)
    (index : Z) (info : Z) : outcome (Z * option LrmPortInfo) :=
  if (h =? 0) || (info =? 0) then Returns (LRM_ERR_INVALID, None)
  else match heap !! h with
       | Some o => get_port (input_ports o) index true
       | None => Undefined
       end.

Definition lrm_observer_get_output (heap : gmap Z LrmObserver) (h : Z)
    (index : Z) (info : Z) : outcome (Z * option LrmPortInfo) :=
  if (h =? 0) || (info =? 0) then Returns (LRM_ERR_INVALID, None)
  else match heap !! h with
       | Some o => get_port (output_ports o) index false
       | None => Undefined
       end.

End Ffi.

(* ===================================================================== *)
(** ** The process-wide hotplug slot ([android_helpers.cpp]) *)
(* ===================================================================== *)

Module HotplugGate.

(** [hotplug_callback_t]: the functions whose address is ever stored in
    the slot. *)
Inductive hotplug_callback_t : Type :=
  | on_device_added_static
  | on_device_removed_static
  | other_function (addr : Z).

(** The three globals; [None] is [nullptr]. *)
Record gate : Type := mk_gate {
  g_active_hotplug_observer : Z;
  g_on_device_added         : option hotplug_callback_t;
  g_on_device_removed       : option hotplug_callback_t
}.

Definition gate_initial : gate := mk_gate 0 None None.

Definition set_hotplug_observer (observer : Z)
    (on_added on_removed : option hotplug_callback_t) (_ : gate) : gate :=
  mk_gate observer on_added on_removed.

Definition clear_hotplug_observer (_ : gate) : gate :=
  mk_gate 0 None None.

(** The call a JNI entry point makes, if any: the function and its
    argument. *)
Definition onDeviceAddedNative (g : gate) (observer_ptr : Z)
  : option (hotplug_callback_t * Z) :=
  match g_on_device_added g with
  | Some f =>
      if negb (observer_ptr =? 0) && (observer_ptr =? g_active_hotplug_observer g)
      then Some (f, observer_ptr) else None
  | None => None
  end.

Definition onDeviceRemovedNative (g : gate) (observer_ptr : Z)
  : option (hotplug_callback_t * Z) :=
  match g_on_device_removed g with
  | Some f =>
      if negb (observer_ptr =? 0) && (observer_ptr =? g_active_hotplug_observer g)
      then Some (f, observer_ptr) else None
  | None => None
  end.

End HotplugGate.

(* ===================================================================== *)
(** ** The Android observer ([backends/android/observer.hpp]) *)
(* ===================================================================== *)

Module Android.

Import HotplugGate.

(** What the Java side answers for one [MidiDeviceInfo]: the bundle
    strings ([None] when [Bundle.getString] returns null), the device
    type and the port counts. *)
Record device_info : Type := mk_device {
  prop_name          : option string;
  prop_manufacturer  : option string;
  prop_product       : option string;
  prop_serial_number : option string;
  device_type        : Z;
  input_port_count   : Z;
  output_port_count  : Z
}.

(** The JNI environment as the observer sees it at one call:
    whether [get_thread_env], [get_context] and [get_midi_manager]
    answer non-null, whether [register_device_callback] can build its
    callback object, and the devices [MidiManager.getDevices] lists. *)
Record jni : Type := mk_jni {
  thread_env      : bool;
  app_context     : bool;
  midi_service    : bool;
  status_callback : bool;
  devices         : list device_info
}.

(** [midi_port_entry]: a device and a port index within it. *)
Record midi_port_entry : Type := mk_entry {
  entry_device : device_info;
  port_index   : Z
}.

(** [context::refresh_midi_devices]: the new value of
    [context::midi_ports]. *)
Definition refresh_midi_devices (w : jni) (is_output : bool) : list midi_port_entry :=
  if midi_service w then
    flat_map
      (fun d =>
         let port_count := if is_output then input_port_count d
                           else output_port_count d in
         map (mk_entry d) (seqZ 0 port_count))
      (devices w)
  else [].

Definition get_bundle_string (value : option string) : string :=
  match value with Some s => s | None => "" end.

Definition context_port_name (midi_ports : list midi_port_entry) (port_number : nat)
  : string :=
  match midi_ports !! port_number with
  | None => ""
  | Some entry =>
      get_bundle_string (prop_name (entry_device entry))
        +:+ (" Port " +:+ pretty (port_index entry + 1))
  end.

Definition context_port_manufacturer (midi_ports : list midi_port_entry)
    (port_number : nat) : string :=
  match midi_ports !! port_number with
  | None => ""
  | Some entry => get_bundle_string (prop_manufacturer (entry_device entry))
  end.

Definition context_port_product (midi_ports : list midi_port_entry)
    (port_number : nat) : string :=
  match midi_ports !! port_number with
  | None => ""
  | Some entry => get_bundle_string (prop_product (entry_device entry))
  end.

Definition context_port_serial (midi_ports : list midi_port_entry)
    (port_number : nat) : string :=
  match midi_ports !! port_number with
  | None => ""
  | Some entry => get_bundle_string (prop_serial_number (entry_device entry))
  end.

Definition context_port_type (midi_ports : list midi_port_entry)
    (port_number : nat) : Z :=
  match midi_ports !! port_number with
  | None => 0
  | Some entry => device_type (entry_device entry)
  end.

(** The [switch (android_type)] of the enumeration loop. *)
Definition map_android_type (android_type : Z) : Z :=
  if android_type =? 1 then Z.lor LRM_TRANSPORT_HARDWARE LRM_TRANSPORT_USB
  else if android_type =? 2 then LRM_TRANSPORT_SOFTWARE
  else if android_type =? 3 then Z.lor LRM_TRANSPORT_HARDWARE LRM_TRANSPORT_BLUETOOTH
  else LRM_TRANSPORT_UNKNOWN.

(** Modelled from the spec: the default member initializer of
    [port_information::client] belongs to the third-party declaration;
    the enumeration never assigns the field and nothing in the
    repository reads it back except to copy it out. *)
Definition default_client : Z := Int.u64 (-1).

(** The body of the enumeration loop for index [i]. *)
Definition make_port (midi_ports : list midi_port_entry) (i : nat) : port_information :=
  let name := context_port_name midi_ports i in
  let manufacturer := context_port_manufacturer midi_ports i in
  let product := context_port_product midi_ports i in
  let serial := context_port_serial midi_ports i in
  let android_type := context_port_type midi_ports i in
  {| client := default_client;
     port := Z.of_nat i;
     port_name := name;
     device_name := if String.eqb product "" then name else product;
     display_name := name;
     manufacturer := manufacturer;
     product := product;
     serial := serial;
     type := map_android_type android_type |}.

Definition enumerate (w : jni) (is_output : bool) : list port_information :=
  if negb (thread_env w) then []
  else if negb (app_context w) then []
  else
    let midi_ports := refresh_midi_devices w is_output in
    map (make_port midi_ports) (seq 0 (length midi_ports)).

Definition get_input_ports (w : jni) : list port_information := enumerate w false.
Definition get_output_ports (w : jni) : list port_information := enumerate w true.

(** *** The diff *)

(** [for (const auto& p : ports) keys.insert(port_key(p))]. *)
Definition key_set (ports : list port_information) : gset string :=
  foldl (fun keys p => keys ∪ {[ port_key p ]}) ∅ ports.

(** [for (const auto& p : ports) if (keys.find(port_key(p)) ==
    keys.end()) out.push_back(p)]. *)
Definition push_absent (keys : gset string) (ports : list port_information)
  : list port_information :=
  foldl (fun out p => if decide (port_key p ∈ keys) then out else out ++ [p])
        [] ports.

(** [diff_added(current, cache)]: the returned vector and the new value
    of [cache]. *)
Definition diff_added (current cache : list port_information)
  : list port_information * list port_information :=
  let cached_keys := key_set cache in
  let added := push_absent cached_keys current in
  (added, current).

(** [diff_removed(current, cache)]: the returned vector and the new
    value of [cache]. *)
Definition diff_removed (current cache : list port_information)
  : list port_information * list port_information :=
  let current_keys := key_set current in
  let removed := push_absent current_keys cache in
  (removed, current).

(** *** The observer object *)

(** The callbacks of [libremidi::observer_configuration] ([true] when
    the [std::function] is set) and [notify_in_constructor]. *)
Record observer_configuration : Type := mk_conf {
  input_added           : bool;
  input_removed         : bool;
  output_added          : bool;
  output_removed        : bool;
  notify_in_constructor : bool
}.

(** Modelled from the spec: [observer_configuration::has_callbacks]
    is declared by the third-party library: some callback is set. *)
Definition has_callbacks (c : observer_configuration) : bool :=
  input_added c || input_removed c || output_added c || output_removed c.

Record observer : Type := mk_android_observer {
  configuration   : observer_configuration;
  midi_manager    : bool;
  device_callback : bool;
  cached_inputs   : list port_information;
  cached_outputs  : list port_information
}.

(** One invocation of a configured callback. *)
Inductive port_event : Type :=
  | InputAdded (p : port_information)
  | InputRemoved (p : port_information)
  | OutputAdded (p : port_information)
  | OutputRemoved (p : port_information).

Definition is_input_event (e : port_event) : bool :=
  match e with InputAdded _ | InputRemoved _ => true | _ => false end.

Definition set_cached_inputs (o : observer) (l : list port_information) : observer :=
  mk_android_observer (configuration o) (midi_manager o) (device_callback o)
                      l (cached_outputs o).

Definition set_cached_outputs (o : observer) (l : list port_information) : observer :=
  mk_android_observer (configuration o) (midi_manager o) (device_callback o)
                      (cached_inputs o) l.

Definition on_device_added (o : observer) (w : jni) : observer * list port_event :=
  let '(o1, ev1) :=
    if input_added (configuration o) then
      let '(added, cache) := diff_added (get_input_ports w) (cached_inputs o) in
      (set_cached_inputs o cache, map InputAdded added)
    else (o, []) in
  let '(o2, ev2) :=
    if output_added (configuration o1) then
      let '(added, cache) := diff_added (get_output_ports w) (cached_outputs o1) in
      (set_cached_outputs o1 cache, map OutputAdded added)
    else (o1, []) in
  (o2, ev1 ++ ev2).

Definition on_device_removed (o : observer) (w : jni) : observer * list port_event :=
  let '(o1, ev1) :=
    if input_removed (configuration o) then
      let '(removed, cache) := diff_removed (get_input_ports w) (cached_inputs o) in
      (set_cached_inputs o cache, map InputRemoved removed)
    else (o, []) in
  let '(o2, ev2) :=
    if output_removed (configuration o1) then
      let '(removed, cache) := diff_removed (get_output_ports w) (cached_outputs o1) in
      (set_cached_outputs o1 cache, map OutputRemoved removed)
    else (o1, []) in
  (o2, ev1 ++ ev2).

(** The constructor, for an object at address [self]: the object, the
    slot afterwards and the callbacks made. *)
Definition observer_new (conf : observer_configuration) (self : Z) (w : jni)
    (g : gate) : observer * gate * list port_event :=
  if has_callbacks conf then
    let registered := thread_env w && app_context w && midi_service w in
    let g' :=
      if registered
      then set_hotplug_observer self (Some on_device_added_static)
                                (Some on_device_removed_static) g
      else g in
    let notified :=
      if notify_in_constructor conf then
        (if input_added conf then map InputAdded (get_input_ports w) else [])
        ++ (if output_added conf then map OutputAdded (get_output_ports w) else [])
      else [] in
    (mk_android_observer conf registered (registered && status_callback w)
                         (get_input_ports w) (get_output_ports w),
     g', notified)
  else (mk_android_observer conf false false [] [], g, []).

(** The destructor: the slot afterwards. *)
Definition observer_dtor (o : observer) (w : jni) (g : gate) : gate :=
  if thread_env w then
    if midi_manager o && device_callback o then clear_hotplug_observer g else g
  else g.

End Android.

(* ===================================================================== *)
(** ** Observer creation and the MIDI ports ([libremidi_flutter.cpp]) *)
(* ===================================================================== *)

Module Midi.

Import Ffi.

(** [lrm_observer_new_with_callbacks], as far as the heap and the
    returned handle go: [new LrmObserver(callback, context)] inside a
    [try].  [alloc] is the address the [new] expression yields, [None]
    when it throws (in the allocation or in the constructor); the handle
    is then [nullptr] and no observer was added to the heap.  What a
    constructor that throws leaves behind in CoreMIDI is the subject of
    [lrm_observer_create] below. *)
Definition lrm_observer_new_with_callbacks (heap : gmap Z LrmObserver)
    (alloc : option Z) (callback context client : Z) (sys : backend)
  : gmap Z LrmObserver * Z :=
  match alloc with
  | Some a => (<[a := LrmObserver_new callback context client sys]> heap, a)
  | None => (heap, 0)
  end.

(** [lrm_observer_new]: the constructor's default arguments are null. *)
Definition lrm_observer_new (heap : gmap Z LrmObserver) (alloc : option Z)
    (sys : backend) : gmap Z LrmObserver * Z :=
  lrm_observer_new_with_callbacks heap alloc 0 0 0 sys.

(** *** Creation and disposal with the CoreMIDI clients *)

(** How the expression [new LrmObserver(callback, context)] ends:
    the constructor returns (storage at [a]); the allocation itself
    throws; or the constructor throws after the storage at [a] was
    obtained, in [make_unique<libremidi::observer>] or in the first
    [refreshInternal], that is after the client was created.  In the
    last case the members are destroyed and the storage is released, but
    the body of [~LrmObserver] does not run. *)
Inductive construction : Type :=
  | Completed (a : Z)
  | AllocationFailed
  | ConstructorThrew (a : Z).

Definition allocation_of (how : construction) : option Z :=
  match how with
  | Completed a => Some a
  | AllocationFailed | ConstructorThrew _ => None
  end.

(** The clients CoreMIDI holds: each live [MIDIClientRef] with the
    observer its notification block captured as [this].

    [MIDIClientCreateWithBlock] in the constructor: called only with a
    callback; [client] is the reference it stored, [0] when it failed. *)
Definition register_client (clients : gmap Z Z) (callback client this : Z)
  : gmap Z Z :=
  if (callback =? 0) || (client =? 0) then clients else <[client := this]> clients.

(** [lrm_observer_new_with_callbacks] with the clients: the heap, the
    clients and the returned handle. *)
Definition lrm_observer_create (heap : gmap Z LrmObserver) (clients : gmap Z Z)
    (how : construction) (callback context client : Z) (sys : backend)
  : gmap Z LrmObserver * gmap Z Z * Z :=
  match how with
  | Completed a =>
      (<[a := LrmObserver_new callback context client sys]> heap,
       register_client clients callback client a, a)
  | AllocationFailed => (heap, clients, 0)
  | ConstructorThrew a => (heap, register_client clients callback client a, 0)
  end.

(** [lrm_observer_free] with the clients: the destructor disposes the
    client if there is one, then the storage is released. *)
Definition lrm_observer_destroy (heap : gmap Z LrmObserver) (clients : gmap Z Z)
    (h : Z) : outcome (gmap Z LrmObserver * gmap Z Z) :=
  if h =? 0 then Returns (heap, clients)
  else match heap !! h with
       | Some o =>
           Returns (delete h heap,
                    if midiClient o =? 0 then clients
                    else delete (midiClient o) clients)
       | None => Undefined
       end.

(** CoreMIDI runs the notification block of [client]: nothing happens
    for a reference that is not a live client; otherwise
    [handleMIDINotification(this, notification)] runs on the captured
    observer, which must still be there. *)
Definition deliver_notification (heap : gmap Z LrmObserver) (clients : gmap Z Z)
    (client : Z) (sys : backend) (notification : MIDINotification)
  : outcome (gmap Z LrmObserver * list hotplug_call) :=
  match clients !! client with
  | None => Returns (heap, [])
  | Some this =>
      match heap !! this with
      | Some o =>
          let r := handleMIDINotification o sys notification in
          Returns (<[this := fst r]> heap, snd r)
      | None => Undefined
      end
  end.

(** [struct LrmMidiOut]: the wrapped [libremidi::midi_out], known by the
    port it was opened on. *)
Record LrmMidiOut : Type := mk_midi_out {
  out_port : port_information
}.

(** [struct LrmMidiIn]: the port, the callback and its context, and the
    three flags of the [input_configuration]. *)
Record LrmMidiIn : Type := mk_midi_in {
  in_port        : port_information;
  in_callback    : Z;
  in_context     : Z;
  ignore_sysex   : bool;
  ignore_timing  : bool;
  ignore_sensing : bool
}.

(** [lrm_midi_out_open]: the new object, [None] for [nullptr].  [opens]
    tells for which ports [open_port] returns without throwing. *)
Definition lrm_midi_out_open (heap : gmap Z LrmObserver) (h : Z) (port_index : Z)
    (opens : port_information -> bool) : outcome (option LrmMidiOut) :=
  if h =? 0 then Returns None
  else match heap !! h with
       | None => Undefined
       | Some o =>
           if (port_index <? 0)
              || (port_index >=? Int.to_int32 (Z.of_nat (length (output_ports o))))
           then Returns None
           else match output_ports o !! Z.to_nat port_index with
                | Some p => Returns (if opens p then Some (mk_midi_out p) else None)
                | None => Undefined
                end
       end.

Definition lrm_midi_in_open (heap : gmap Z LrmObserver) (h : Z) (port_index : Z)
    (callback context : Z) (receive_sysex receive_timing receive_sensing : bool)
    (opens : port_information -> bool) : outcome (option LrmMidiIn) :=
  if h =? 0 then Returns None
  else match heap !! h with
       | None => Undefined
       | Some o =>
           if (port_index <? 0)
              || (port_index >=? Int.to_int32 (Z.of_nat (length (input_ports o))))
           then Returns None
           else match input_ports o !! Z.to_nat port_index with
                | Some p =>
                    Returns (if opens p
                             then Some (mk_midi_in p callback context
                                          (negb receive_sysex) (negb receive_timing)
                                          (negb receive_sensing))
                             else None)
                | None => Undefined
                end
       end.

(** A run of the notification block: the notifications delivered one
    after the other, each in the system state of its moment; the observer
    at the end and all the calls made. *)
Definition deliver_step (st : LrmObserver * list hotplug_call)
    (e : backend * MIDINotification) : LrmObserver * list hotplug_call :=
  let r := handleMIDINotification (fst st) (fst e) (snd e) in
  (fst r, snd st ++ snd r).

Definition deliver_all (obs : LrmObserver) (events : list (backend * MIDINotification))
  : LrmObserver * list hotplug_call :=
  foldl deliver_step (obs, []) events.

End Midi.

(** A char occurs in a string. *)
Fixpoint contains_char (c : ascii) (s : string) : bool :=
  match s with
  | EmptyString => false
  | String x rest => if Ascii.eqb x c then true else contains_char c rest
  end.

(** The inverse of the FNV prime modulo [2 ^ 64]. *)
Definition FNV_prime_inverse : Z := 14886173955864302971.

(* ===================================================================== *)
(** ** The JNI shim ([jni_shim.cpp]) and [context::get_thread_env] *)
(* ===================================================================== *)

Module JniShim.

(** Result codes of [jni.h]. *)
Definition JNI_OK        : Z := 0.
Definition JNI_ERR       : Z := -1.
Definition JNI_EDETACHED : Z := -2.

(** [for (char& c : className) if (c == '/') c = '.';] *)
Fixpoint to_java_name (name : string) : string :=
  match name with
  | EmptyString => EmptyString
  | String c rest =>
      String (if Ascii.eqb c "/" then "."%char else c) (to_java_name rest)
  end.

(** The cached globals of [JNI_OnLoad]; [0] is null. *)
Record class_cache : Type := mk_class_cache {
  g_classLoader     : Z;
  g_findClassMethod : Z
}.

(** [libremidi_find_class].  [loadClass] is what
    [ClassLoader.loadClass] answers for a name: the class and whether an
    exception is pending; [FindClass] is the JNI default lookup. *)
Definition libremidi_find_class (cache : class_cache)
    (loadClass : string -> Z * bool) (FindClass : string -> Z) (name : string) : Z :=
  if negb (g_classLoader cache =? 0) && negb (g_findClassMethod cache =? 0) then
    let '(clazz, exception) := loadClass (to_java_name name) in
    if exception then 0 else clazz
  else FindClass name.

(** The statics of the shim: the [initialized] flag of
    [init_jni_functions] and the resolved function pointer. *)
Record shim_state : Type := mk_shim {
  initialized             : bool;
  s_JNI_GetCreatedJavaVMs : Z
}.

Definition shim_initial : shim_state := mk_shim false 0.

(** The dynamic linker: the handle [dlopen] returns for a library and
    the address [dlsym] returns for a handle and a symbol; [0] is null. *)
Record linker : Type := mk_linker {
  dlopen : string -> Z;
  dlsym  : Z -> string -> Z
}.

Definition init_jni_functions (dl : linker) (st : shim_state) : shim_state :=
  if initialized st then st
  else
    let handle1 := dlopen dl "libnativehelper.so" in
    let s1 := if handle1 =? 0 then s_JNI_GetCreatedJavaVMs st
              else dlsym dl handle1 "JNI_GetCreatedJavaVMs" in
    if negb (handle1 =? 0) && negb (s1 =? 0) then mk_shim true s1
    else
      let handle2 := dlopen dl "libart.so" in
      let s2 := if handle2 =? 0 then s1
                else dlsym dl handle2 "JNI_GetCreatedJavaVMs" in
      mk_shim true s2.

(** What a call through the resolved pointer does: the result code, the
    VM stored in the buffer and the count stored in [nVMs]. *)
Record created_vms : Type := mk_created {
  vms_result : Z;
  vms_buffer : Z;
  vms_count  : Z
}.

(** The exported [JNI_GetCreatedJavaVMs], called with a non-null [nVMs];
    [vmBuf] is what the caller's buffer holds before the call and [real]
    the behaviour of the function at a given address. *)
Definition JNI_GetCreatedJavaVMs (dl : linker) (st : shim_state)
    (real : Z -> created_vms) (vmBuf : Z) : shim_state * created_vms :=
  let st' := init_jni_functions dl st in
  if s_JNI_GetCreatedJavaVMs st' =? 0
  then (st', mk_created JNI_ERR vmBuf 0)
  else (st', real (s_JNI_GetCreatedJavaVMs st')).

(** What the VM answers to [GetEnv] and to [AttachCurrentThread]: the
    result code and the environment pointer it stores. *)
Record java_vm : Type := mk_java_vm {
  GetEnv              : Z * Z;
  AttachCurrentThread : Z * Z
}.

(** [context::get_thread_env] ([android_helpers.cpp]); [jvm0] is the
    uninitialized content of the local [jvm]. *)
Definition get_thread_env (dl : linker) (st : shim_state)
    (real : Z -> created_vms) (vm_at : Z -> java_vm) (jvm0 : Z) : shim_state * Z :=
  let '(st', r) := JNI_GetCreatedJavaVMs dl st real jvm0 in
  if negb (vms_result r =? JNI_OK) || (vms_count r <? 1) then (st', 0)
  else
    let vm := vm_at (vms_buffer r) in
    if fst (GetEnv vm) =? JNI_EDETACHED then
      if negb (fst (AttachCurrentThread vm) =? JNI_OK) then (st', 0)
      else (st', snd (AttachCurrentThread vm))
    else (st', snd (GetEnv vm)).

End JniShim.

(* ===================================================================== *)
(** ** Device information on Windows ([backends/winuwp/helpers.hpp]) *)
(* ===================================================================== *)

Module WinUwp.

(** A [std::wstring] is the list of its UTF-16 code units. *)
Definition L_backslash : Z := 92.
Definition L_question  : Z := 63.
Definition L_hash      : Z := 35.
Definition L_brace     : Z := 123.

(** The code units of an ASCII literal. *)
Definition wide_of (s : string) : list Z :=
  map (fun c => Z.of_N (N_of_ascii c)) (list_ascii_of_string s).

(** [wide.find(L"#{", pos)], run over the units from [pos] on: the
    position of the first ['#'] directly followed by ['{']. *)
Fixpoint find_guid (units : list Z) (pos : nat) : option nat :=
  match units with
  | a :: rest =>
      match rest with
      | b :: _ =>
          if (a =? L_hash) && (b =? L_brace) then Some pos
          else find_guid rest (S pos)
      | [] => None
      end
  | [] => None
  end.

(** [winrt_id_to_pnp_instance_id], from the wide string that
    [MultiByteToWideChar] produced ([[]] when it reports one unit or
    none): skip a leading [\\?\], stop before the first ["#{"], turn
    every ['#'] into a backslash. *)
Definition winrt_id_to_pnp_instance_id (wide : list Z) : list Z :=
  match wide with
  | [] => []
  | _ =>
      let pos :=
        if (4 <? length wide)%nat
           && bool_decide (take 4 wide
                           = [L_backslash; L_backslash; L_question; L_backslash])
        then 4%nat else 0%nat in
      let guidPos :=
        match find_guid (drop pos wide) pos with
        | Some g => g
        | None => length wide
        end in
      map (fun c => if c =? L_hash then L_backslash else c)
          (take (guidPos - pos) (drop pos wide))
  end.

(** One node of the device tree as the configuration manager reports it:
    the instance id in UTF-8, two string properties (each empty when the
    call fails) and the parent ([None] when [CM_Get_Parent] fails). *)
Record devnode : Type := mk_devnode {
  instance_id       : string;
  bus_reported_desc : string;
  friendly_name     : string;
  parent            : option Z
}.

Record winuwp_device_info : Type := mk_device_info {
  device_name    : string;
  transport_type : Z
}.

Definition no_info : winuwp_device_info := mk_device_info "" 0.

(** [cfgmgr_get_instance_id]: empty for the null node and for a node the
    configuration manager does not know. *)
Definition cfgmgr_get_instance_id (tree : gmap Z devnode) (devInst : Z) : string :=
  if devInst =? 0 then ""
  else match tree !! devInst with
       | Some n => instance_id n
       | None => ""
       end.

Definition bus_desc_of (tree : gmap Z devnode) (devInst : Z) : string :=
  match tree !! devInst with Some n => bus_reported_desc n | None => "" end.

Definition friendly_name_of (tree : gmap Z devnode) (devInst : Z) : string :=
  match tree !! devInst with Some n => friendly_name n | None => "" end.

Definition CM_Get_Parent (tree : gmap Z devnode) (devInst : Z) : option Z :=
  match tree !! devInst with Some n => parent n | None => None end.

(** [s.find(pat) != npos]. *)
Definition contains (pat s : string) : bool :=
  match String.index 0 pat s with Some _ => true | None => false end.

(** "USB device without interface suffix". *)
Definition is_usb_device (instanceId : string) : bool :=
  String.prefix "USB\VID_" instanceId && negb (contains "&MI_" instanceId).

Definition is_bluetooth_device (instanceId : string) : bool :=
  String.prefix "BTHENUM\" instanceId || String.prefix "BTH\" instanceId.

Definition hardware_usb : Z := Z.lor LRM_TRANSPORT_HARDWARE LRM_TRANSPORT_USB.
Definition hardware_bluetooth : Z :=
  Z.lor LRM_TRANSPORT_HARDWARE LRM_TRANSPORT_BLUETOOTH.

(** The loop of [cfgmgr_get_usb_parent_info] with [depth] iterations
    left. *)
Fixpoint usb_parent_loop (depth : nat) (tree : gmap Z devnode) (current : Z)
  : winuwp_device_info :=
  match depth with
  | O => no_info
  | S depth' =>
      if current =? 0 then no_info
      else
        let instanceId := cfgmgr_get_instance_id tree current in
        if is_usb_device instanceId then
          let name := bus_desc_of tree current in
          mk_device_info
            (if String.eqb name "" then friendly_name_of tree current else name)
            hardware_usb
        else if is_bluetooth_device instanceId then
          mk_device_info (friendly_name_of tree current) hardware_bluetooth
        else
          match CM_Get_Parent tree current with
          | Some p => usb_parent_loop depth' tree p
          | None => no_info
          end
  end.

Definition cfgmgr_get_usb_parent_info (tree : gmap Z devnode) (devInst : Z)
  : winuwp_device_info :=
  usb_parent_loop 10 tree devInst.

(** [get_device_info_from_port_id], from the decoded port id; [locate]
    is [CM_Locate_DevNodeW] ([None] when it fails). *)
Definition get_device_info_from_port_id (tree : gmap Z devnode)
    (locate : list Z -> option Z) (portId : list Z) : winuwp_device_info :=
  match winrt_id_to_pnp_instance_id portId with
  | [] => no_info
  | instanceId =>
      match locate instanceId with
      | None => no_info
      | Some devInst =>
          let info := cfgmgr_get_usb_parent_info tree devInst in
          if String.eqb (device_name info) "" then
            if contains "MICROSOFTGSWAVETABLESYNTH" (cfgmgr_get_instance_id tree devInst)
            then mk_device_info "Microsoft GS Wavetable Synth" LRM_TRANSPORT_SOFTWARE
            else info
          else info
      end
  end.

(** The node reached by following [CM_Get_Parent] [n] times through
    non-null nodes. *)
Fixpoint nth_parent (tree : gmap Z devnode) (devInst : Z) (n : nat) : option Z :=
  if devInst =? 0 then None
  else match n with
       | O => Some devInst
       | S n' =>
           match CM_Get_Parent tree devInst with
           | Some p => nth_parent tree p n'
           | None => None
           end
       end.

(** A node at which the walk stops with an answer. *)
Definition is_classified (tree : gmap Z devnode) (devInst : Z) : bool :=
  is_usb_device (cfgmgr_get_instance_id tree devInst)
  || is_bluetooth_device (cfgmgr_get_instance_id tree devInst).

End WinUwp.

(* ===================================================================== *)
(** * Reference definitions and sample data *)
(* ===================================================================== *)

Import Ffi.
Import HotplugGate Android.

(** ** The design document's wording *)

(** The id as a function of the four identifying fields alone. *)
Definition stable_id_of_fields (f : string * string * string * string) : Z :=
  let '(name, manufacturer, product, serial) := f in
  fnv1a_hash (name +:+ "|" +:+ manufacturer +:+ "|" +:+ product +:+ "|" +:+ serial).

(** The diff as the design document words it: a descriptor of [new]
    whose key is not a key of [old] is added, a descriptor of [old] whose
    key is not a key of [new] is removed; both keep the order of the
    snapshot they are taken from. *)
Definition spec_added (old new : list port_information) : list port_information :=
  filter (fun p => port_key p ∉ map port_key old) new.

Definition spec_removed (old new : list port_information) : list port_information :=
  filter (fun p => port_key p ∉ map port_key new) old.

(** ** Sample ports *)

(** The same virtual bus seen by two enumerations: the native handles,
    the display strings and the transport type differ, the four
    identifying fields do not. *)
Definition bus1_first : port_information :=
  mk_port 7 1001 "Acme" "IAC Driver" "Bus 1" "IAC Driver Bus 1" "" "" LRM_TRANSPORT_SOFTWARE.

Definition bus1_again : port_information :=
  mk_port 9 2002 "Acme" "IAC" "Bus 1" "Bus 1" "" "" LRM_TRANSPORT_LOOPBACK.

(** Two units of one product that differ in the serial number only. *)
Definition acme_port : port_information :=
  mk_port 0 1 "Acme" "Synth" "Bus 1" "Synth Bus 1" "S1" "0001" LRM_TRANSPORT_HARDWARE.

Definition other_port : port_information :=
  mk_port 0 1 "Acme" "Synth" "Bus 1" "Synth Bus 1" "S1" "0002" LRM_TRANSPORT_HARDWARE.

Definition port_named (name : string) (handle : Z) : port_information :=
  mk_port 0 handle "Acme" name name name "" "" LRM_TRANSPORT_HARDWARE.

(** ** A CoreMIDI observer and a setup-changed notification *)

Definition setup_changed : MIDINotification :=
  mk_notification kMIDIMsgSetupChanged (kMIDIObjectType_OtherObject 0).

(** An observer with a callback, one cached input and no output; the
    system now has the same input and one output. *)
Definition mac_observer : LrmObserver :=
  mk_observer true [port_named "A" 1] [] 4096 77 9.

Definition mac_system : backend :=
  mk_backend [port_named "A" 1] [port_named "B" 2].

Definition one_observer : gmap Z LrmObserver := {[ 4096 := mac_observer ]}.

(** ** An Android observer and its devices *)

(** A USB keyboard with one output port (an input of the application)
    and a USB synth with one input port (an output of the application). *)
Definition keyboard : device_info :=
  mk_device (Some "Keys") (Some "Acme") (Some "K1") None 1 0 1.

Definition synth : device_info :=
  mk_device (Some "Synth") (Some "Acme") (Some "S1") (Some "42") 1 1 0.

Definition world_before : jni := mk_jni true true true true [keyboard].
Definition world_after : jni := mk_jni true true true true [keyboard; synth].

(** The keyboard is still there but [get_thread_env] fails. *)
Definition world_failed : jni := mk_jni false true true true [keyboard].

(** The observer built in [world_before] with the four callbacks set. *)
Definition android_observer : observer :=
  Eval vm_compute in
    fst (fst (observer_new (mk_conf true true true true false) 4096
                           world_before gate_initial)).

Definition keyboard_port : port_information :=
  mk_port default_client 0 "Acme" "K1" "Keys Port 1" "Keys Port 1" "K1" ""
          (Z.lor LRM_TRANSPORT_HARDWARE LRM_TRANSPORT_USB).

Definition synth_port : port_information :=
  mk_port default_client 0 "Acme" "S1" "Synth Port 1" "Synth Port 1" "S1" "42"
          (Z.lor LRM_TRANSPORT_HARDWARE LRM_TRANSPORT_USB).

(** The slot after a second observer registered over the first. *)
Definition second_registration : gate :=
  set_hotplug_observer 8192 (Some on_device_added_static)
    (Some on_device_removed_static)
    (set_hotplug_observer 4096 (Some on_device_added_static)
       (Some on_device_removed_static) gate_initial).

(** ** Further sample data *)

(** The keyboard was unplugged and the synth plugged in between two
    signals. *)
Definition world_swapped : jni := mk_jni true true true true [synth].

(** A device with two application inputs. *)
Definition two_port_device : device_info :=
  mk_device (Some "Duo") (Some "Acme") (Some "D2") None 1 0 2.

Definition world_duo : jni := mk_jni true true true true [two_port_device; synth].

(** A second controller plugged in next to the keyboard. *)
Definition pad : device_info :=
  mk_device (Some "Pad") (Some "Acme") (Some "P1") None 1 0 1.

Definition world_with_pad : jni := mk_jni true true true true [keyboard; pad].

Definition pad_port : port_information :=
  mk_port default_client 1 "Acme" "P1" "Pad Port 1" "Pad Port 1" "P1" ""
          (Z.lor LRM_TRANSPORT_HARDWARE LRM_TRANSPORT_USB).

(** The slot as the constructor of [android_observer] leaves it. *)
Definition android_slot : gate :=
  Eval vm_compute in
    snd (fst (observer_new (mk_conf true true true true false) 4096
                           world_before gate_initial)).

(** The same construction when [register_device_callback] cannot build
    its Java object: the observer and the slot. *)
Definition world_without_callback_class : jni :=
  mk_jni true true true false [keyboard].

Definition unregistered_observer : observer :=
  Eval vm_compute in
    fst (fst (observer_new (mk_conf true true true true false) 4096
                           world_without_callback_class gate_initial)).

Definition unregistered_slot : gate :=
  Eval vm_compute in
    snd (fst (observer_new (mk_conf true true true true false) 4096
                           world_without_callback_class gate_initial)).

(** A linker that has neither library and one that resolves
    everything. *)
Definition linker_without_symbol : JniShim.linker :=
  JniShim.mk_linker (fun _ => 0) (fun _ _ => 0).

Definition linker_with_symbol : JniShim.linker :=
  JniShim.mk_linker (fun _ => 5) (fun _ _ => 9).

(** A MIDI interface node below a USB device node. *)
Definition usb_tree : gmap Z WinUwp.devnode :=
  {[ 1 := WinUwp.mk_devnode "SWD\MMDEVAPI\MIDII_60E5" "" "Keys" (Some 2);
     2 := WinUwp.mk_devnode "USB\VID_1234&PID_0001&MI_00\6&1" "" "" (Some 3);
     3 := WinUwp.mk_devnode "USB\VID_1234&PID_0001\SN42" "Acme Keys" "USB Audio" None ]}.

(* ===================================================================== *)
(** * Properties *)
(* ===================================================================== *)

(** ** The hash on the published FNV-1a vectors *)

Example fnv1a_empty : fnv1a_hash "" = 0xcbf29ce484222325.
Proof. reflexivity. Qed.

Example fnv1a_a : fnv1a_hash "a" = 0xaf63dc4c8601ec8c.
Proof. vm_compute. reflexivity. Qed.

Example fnv1a_foobar : fnv1a_hash "foobar" = 0x85944171f73967e8.
Proof. vm_compute. reflexivity. Qed.


(** ** Strings and the key *)

Section KeyFacts.

Lemma append_assoc (a b c : string) : (a +:+ b) +:+ c = a +:+ (b +:+ c).
Proof.
  induction a as [|x a IH]; [reflexivity|].
  change (String x ((a +:+ b) +:+ c) = String x (a +:+ (b +:+ c))).
  f_equal. exact IH.
Qed.

(** The key, read from the left: each field is followed by the
    delimiter, the last one ends the string. *)
Lemma port_key_unfold (p : port_information) :
  port_key p =
  port_name p +:+ String "|" (manufacturer p +:+ String "|"
                                (product p +:+ String "|" (serial p))).
Proof.
  unfold port_key, sep.
  rewrite !append_assoc. simpl. reflexivity.
Qed.

(** Two delimiter-free prefixes followed by the delimiter can be read
    back: the first delimiter of the whole string ends the prefix. *)
Lemma split_at_sep (a a' r r' : string) :
  has_sep a = false -> has_sep a' = false ->
  a +:+ String "|" r = a' +:+ String "|" r' ->
  a = a' /\ r = r'.
Proof.
  revert a'. induction a as [|x a IH]; intros [|y a'] Ha Ha' E; simpl in *.
  - inversion E. auto.
  - inversion E; subst. rewrite Ascii.eqb_refl in Ha'. discriminate.
  - inversion E; subst. rewrite Ascii.eqb_refl in Ha. discriminate.
  - inversion E; subst.
    destruct (Ascii.eqb y "|"); [discriminate|].
    destruct (IH a' Ha Ha' H1) as [-> ->]. auto.
Qed.

Lemma port_key_fields (a b : port_information) :
  has_sep (port_name a) = false -> has_sep (port_name b) = false ->
  has_sep (manufacturer a) = false -> has_sep (manufacturer b) = false ->
  has_sep (product a) = false -> has_sep (product b) = false ->
  port_key a = port_key b -> ident_fields a = ident_fields b.
Proof.
  intros Hn Hn' Hm Hm' Hp Hp' E.
  rewrite !port_key_unfold in E.
  apply split_at_sep in E as [E1 E]; [|assumption..].
  apply split_at_sep in E as [E2 E]; [|assumption..].
  apply split_at_sep in E as [E3 E4]; [|assumption..].
  unfold ident_fields. congruence.
Qed.

Lemma ident_fields_key (a b : port_information) :
  ident_fields a = ident_fields b -> port_key a = port_key b.
Proof.
  unfold ident_fields, port_key. intros E. inversion E. congruence.
Qed.

End KeyFacts.

Lemma stable_id_fields (p : port_information) (index : Z) (is_input : bool) :
  info_stable_id (fill_port_info p index is_input) = stable_id_of_fields (ident_fields p).
Proof.
  unfold stable_id_of_fields, ident_fields. simpl.
  rewrite port_key_unfold. reflexivity.
Qed.

(** C1.  Two descriptors with equal (port_name, manufacturer, product,
    serial) get the same [stable_id] from [fill_port_info], whatever
    their native handles ([port], [client]), their other fields, the
    enumeration index and the direction; the id is the value of one
    function of the four fields. *)
Theorem stable_id_deterministic
    (a b : port_information) (index_a index_b : Z) (in_a in_b : bool) :
  ident_fields a = ident_fields b ->
  info_stable_id (fill_port_info a index_a in_a)
  = info_stable_id (fill_port_info b index_b in_b)
  /\ info_stable_id (fill_port_info a index_a in_a)
     = stable_id_of_fields (ident_fields a).
Proof.
  intros E. split.
  - rewrite !stable_id_fields. now rewrite E.
  - apply stable_id_fields.
Qed.

Lemma stable_id_deterministic_witness :
  ident_fields bus1_first = ident_fields bus1_again
  /\ info_port_id (fill_port_info bus1_first 0 true)
     <> info_port_id (fill_port_info bus1_again 3 false)
  /\ info_stable_id (fill_port_info bus1_first 0 true)
     = info_stable_id (fill_port_info bus1_again 3 false).
Proof.
  split; [reflexivity|]. split; [vm_compute; discriminate|].
  apply (stable_id_deterministic bus1_first bus1_again 0 3 true false).
  reflexivity.
Defined.

(** C9.  The key is the four fields joined by ["|"]; on descriptors
    whose fields do not contain the delimiter it is injective: different
    field tuples give different keys. *)
Theorem port_key_injective (a b : port_information) :
  legal_fields a -> legal_fields b ->
  ident_fields a <> ident_fields b ->
  port_key a <> port_key b.
Proof.
  intros (Ha1 & Ha2 & Ha3 & _) (Hb1 & Hb2 & Hb3 & _) Hne E.
  apply Hne. now apply port_key_fields.
Qed.

Lemma port_key_injective_witness :
  legal_fields acme_port /\ legal_fields other_port
  /\ port_key acme_port <> port_key other_port.
Proof.
  assert (La : legal_fields acme_port) by (repeat split; reflexivity).
  assert (Lb : legal_fields other_port) by (repeat split; reflexivity).
  split; [exact La|]. split; [exact Lb|].
  apply (port_key_injective acme_port other_port La Lb).
  vm_compute. discriminate.
Defined.

(** The code does not check that a field is delimiter-free: with a ["|"]
    inside a field two different tuples share one key. *)
Example port_key_not_injective_with_sep :
  let a := mk_port 0 0 "" "" "a|b" "" "" "" 0 in
  let b := mk_port 0 0 "b" "" "a" "" "" "|" 0 in
  ident_fields a <> ident_fields b /\ port_key a = port_key b.
Proof. split; [discriminate | reflexivity]. Qed.

(** ** The diff *)

Section DiffFacts.

Lemma key_set_from (acc : gset string) (ports : list port_information) (k : string) :
  k ∈ foldl (fun keys p => keys ∪ {[ port_key p ]}) acc ports
  <-> k ∈ acc \/ k ∈ map port_key ports.
Proof.
  revert acc. induction ports as [|p ports IH]; intros acc; simpl.
  - rewrite elem_of_nil. tauto.
  - rewrite IH, elem_of_union, elem_of_singleton, elem_of_cons. tauto.
Qed.

Lemma elem_of_key_set (ports : list port_information) (k : string) :
  k ∈ key_set ports <-> k ∈ map port_key ports.
Proof.
  unfold key_set. rewrite key_set_from, elem_of_empty. tauto.
Qed.

Lemma push_absent_from (keys : gset string) (out ports : list port_information) :
  foldl (fun out p => if decide (port_key p ∈ keys) then out else out ++ [p])
        out ports
  = out ++ filter (fun p => port_key p ∉ keys) ports.
Proof.
  revert out. induction ports as [|p ports IH]; intros out; simpl.
  - now rewrite app_nil_r.
  - rewrite IH, filter_cons.
    destruct (decide (port_key p ∈ keys)) as [Hin|Hout].
    + rewrite decide_False by tauto. reflexivity.
    + rewrite decide_True by assumption. now rewrite <- app_assoc.
Qed.

Lemma push_absent_filter (keys : gset string) (ports : list port_information) :
  push_absent keys ports = filter (fun p => port_key p ∉ keys) ports.
Proof. unfold push_absent. now rewrite push_absent_from. Qed.

Lemma push_absent_key_set (others ports : list port_information) :
  push_absent (key_set others) ports
  = filter (fun p => port_key p ∉ map port_key others) ports.
Proof.
  rewrite push_absent_filter. apply list_filter_iff.
  intros p. now rewrite elem_of_key_set.
Qed.

Lemma diff_added_spec (current cache : list port_information) :
  diff_added current cache = (spec_added cache current, current).
Proof. unfold diff_added, spec_added. now rewrite push_absent_key_set. Qed.

Lemma diff_removed_spec (current cache : list port_information) :
  diff_removed current cache = (spec_removed cache current, current).
Proof. unfold diff_removed, spec_removed. now rewrite push_absent_key_set. Qed.

Lemma filter_nil_all {A} (P : A -> Prop) `{!forall x, Decision (P x)} (l : list A) :
  (forall x, x ∈ l -> ~ P x) -> filter P l = [].
Proof.
  induction l as [|x l IH]; intros Hall; [reflexivity|].
  rewrite filter_cons_False by (apply Hall; left).
  apply IH. intros y Hy. apply Hall. now right.
Qed.

Lemma spec_added_nil (old new : list port_information) :
  (forall p, p ∈ new -> port_key p ∈ map port_key old) -> spec_added old new = [].
Proof.
  intros H. apply filter_nil_all. intros p Hp Hn. exact (Hn (H p Hp)).
Qed.

Lemma spec_removed_nil (old new : list port_information) :
  (forall p, p ∈ old -> port_key p ∈ map port_key new) -> spec_removed old new = [].
Proof.
  intros H. apply filter_nil_all. intros p Hp Hn. exact (Hn (H p Hp)).
Qed.

Lemma key_of_fields_in (p : port_information) (l : list port_information) :
  ident_fields p ∈ map ident_fields l -> port_key p ∈ map port_key l.
Proof.
  rewrite !list_elem_of_fmap. intros (q & E & Hq).
  exists q. split; [now apply ident_fields_key | assumption].
Qed.

End DiffFacts.

(** C2.  [diff_added] returns the descriptors of the new snapshot whose
    key is not among the keys of the cache, in the order of the new
    snapshot; [diff_removed] returns the descriptors of the cache whose
    key is not among the keys of the new snapshot; both leave the new
    snapshot in the cache.  For S1 = [A; B] and S2 = [B; C] with three
    different keys the results are [C] and [A]. *)
Theorem diff_added_removed_exact :
  (forall old new : list port_information,
      diff_added new old = (spec_added old new, new)
      /\ diff_removed new old = (spec_removed old new, new)
      /\ (forall p, p ∈ fst (diff_added new old)
                    <-> p ∈ new /\ port_key p ∉ map port_key old)
      /\ (forall p, p ∈ fst (diff_removed new old)
                    <-> p ∈ old /\ port_key p ∉ map port_key new)
      /\ fst (diff_added new old) `sublist_of` new
      /\ fst (diff_removed new old) `sublist_of` old)
  /\ (forall A B C : port_information,
        port_key A <> port_key B -> port_key B <> port_key C ->
        port_key A <> port_key C ->
        fst (diff_added [B; C] [A; B]) = [C]
        /\ fst (diff_removed [B; C] [A; B]) = [A]).
Proof.
  split.
  - intros old new. rewrite diff_added_spec, diff_removed_spec. simpl.
    split; [reflexivity|]. split; [reflexivity|].
    split; [|split; [|split]].
    + intros p. unfold spec_added. rewrite list_elem_of_filter. tauto.
    + intros p. unfold spec_removed. rewrite list_elem_of_filter. tauto.
    + apply sublist_filter.
    + apply sublist_filter.
  - intros A B C HAB HBC HAC.
    rewrite diff_added_spec, diff_removed_spec. simpl.
    unfold spec_added, spec_removed. simpl.
    rewrite !filter_cons, filter_nil.
    split.
    + rewrite decide_False by (intros Hn; apply Hn; rewrite !elem_of_cons; auto).
      rewrite decide_True
        by (rewrite !elem_of_cons, elem_of_nil; intros [?|[?|[]]]; congruence).
      reflexivity.
    + rewrite decide_True
        by (rewrite !elem_of_cons, elem_of_nil; intros [?|[?|[]]]; congruence).
      rewrite decide_False by (intros Hn; apply Hn; rewrite !elem_of_cons; auto).
      reflexivity.
Qed.

Lemma diff_added_removed_exact_witness :
  fst (diff_added [port_named "B" 0; port_named "C" 1]
                  [port_named "A" 0; port_named "B" 1]) = [port_named "C" 1]
  /\ fst (diff_removed [port_named "B" 0; port_named "C" 1]
                       [port_named "A" 0; port_named "B" 1]) = [port_named "A" 0].
Proof.
  apply (proj2 diff_added_removed_exact
               (port_named "A" 0) (port_named "B" 1) (port_named "C" 1));
    vm_compute; discriminate.
Defined.

(** C3.  When the new snapshot carries the same set of identifying
    field tuples as the cache (handles, indices, order and the other
    fields may all differ) both diffs are empty; a descriptor whose key
    occurs in both snapshots is in neither result; in particular the diff
    of a snapshot with itself is empty. *)
Theorem diff_no_spurious_churn :
  (forall S S' : list port_information,
      (forall f, (f ∈ map ident_fields S) <-> (f ∈ map ident_fields S')) ->
      fst (diff_added S' S) = [] /\ fst (diff_removed S' S) = [])
  /\ (forall (old new : list port_information) (p : port_information),
        (port_key p ∈ map port_key old) -> (port_key p ∈ map port_key new) ->
        (p ∉ fst (diff_added new old)) /\ (p ∉ fst (diff_removed new old)))
  /\ (forall S : list port_information,
        diff_added S S = ([], S) /\ diff_removed S S = ([], S)).
Proof.
  split; [|split].
  - intros S S' Hsame.
    rewrite diff_added_spec, diff_removed_spec. simpl. split.
    + apply spec_added_nil. intros p Hp.
      apply key_of_fields_in, Hsame, list_elem_of_fmap. eauto.
    + apply spec_removed_nil. intros p Hp.
      apply key_of_fields_in, Hsame, list_elem_of_fmap. eauto.
  - intros old new p Hold Hnew.
    rewrite diff_added_spec, diff_removed_spec. simpl.
    unfold spec_added, spec_removed. rewrite !list_elem_of_filter. tauto.
  - intros S. rewrite diff_added_spec, diff_removed_spec.
    rewrite spec_added_nil, spec_removed_nil; [split; reflexivity | |];
      intros p Hp; apply list_elem_of_fmap; eauto.
Qed.

Lemma diff_no_spurious_churn_witness :
  fst (diff_added [bus1_again] [bus1_first]) = []
  /\ fst (diff_removed [bus1_again] [bus1_first]) = [].
Proof.
  apply (proj1 diff_no_spurious_churn [bus1_first] [bus1_again]).
  intros f. reflexivity.
Defined.

(** ** The Android handlers *)

Section HandlerFacts.

Lemma on_device_added_eq (o : observer) (w : jni) :
  let c := configuration o in
  on_device_added o w =
  (mk_android_observer c (midi_manager o) (device_callback o)
     (if input_added c then get_input_ports w else cached_inputs o)
     (if output_added c then get_output_ports w else cached_outputs o),
   (if input_added c
    then map InputAdded (spec_added (cached_inputs o) (get_input_ports w)) else [])
   ++ (if output_added c
       then map OutputAdded (spec_added (cached_outputs o) (get_output_ports w))
       else [])).
Proof.
  destruct o as [[ia ir oa or nic] mm dc ci co].
  unfold on_device_added, diff_added, spec_added; simpl.
  destruct ia, oa; simpl; rewrite ?push_absent_key_set, ?app_nil_r; reflexivity.
Qed.

Lemma on_device_removed_eq (o : observer) (w : jni) :
  let c := configuration o in
  on_device_removed o w =
  (mk_android_observer c (midi_manager o) (device_callback o)
     (if input_removed c then get_input_ports w else cached_inputs o)
     (if output_removed c then get_output_ports w else cached_outputs o),
   (if input_removed c
    then map InputRemoved (spec_removed (cached_inputs o) (get_input_ports w)) else [])
   ++ (if output_removed c
       then map OutputRemoved (spec_removed (cached_outputs o) (get_output_ports w))
       else [])).
Proof.
  destruct o as [[ia ir oa or nic] mm dc ci co].
  unfold on_device_removed, diff_removed, spec_removed; simpl.
  destruct ir, or; simpl; rewrite ?push_absent_key_set, ?app_nil_r; reflexivity.
Qed.

End HandlerFacts.

Lemma spec_added_one (cache : list port_information) (p : port_information) :
  port_key p ∉ map port_key cache -> spec_added cache (cache ++ [p]) = [p].
Proof.
  intros Hp. unfold spec_added. rewrite filter_app.
  rewrite (filter_nil_all _ cache).
  - rewrite filter_cons_True by assumption. reflexivity.
  - intros q Hq Hn. apply Hn, list_elem_of_fmap. eauto.
Qed.

Lemma spec_removed_all (cache : list port_information) :
  spec_removed cache [] = cache.
Proof.
  unfold spec_removed. induction cache as [|p cache IH]; [reflexivity|].
  rewrite filter_cons_True by (simpl; apply not_elem_of_nil).
  now rewrite IH.
Qed.

Lemma enumerate_failed (w : jni) (is_output : bool) :
  thread_env w = false \/ app_context w = false -> enumerate w is_output = [].
Proof.
  unfold enumerate. intros [-> | ->]; [reflexivity|].
  now destruct (thread_env w).
Qed.

(** ** Signals that do not tell the direction *)

(** C4, on the CoreMIDI path.  The inputs are unchanged and the outputs
    gained one port, yet the setup-changed notification makes the
    callback fire for an added input as well as for an added output. *)
Lemma setup_changed_notifies_both :
  Ffi.get_input_ports mac_system = input_ports mac_observer
  /\ Ffi.get_output_ports mac_system = output_ports mac_observer ++ [port_named "B" 2]
  /\ map call_event (snd (handleMIDINotification mac_observer mac_system setup_changed))
     = [LRM_EVENT_INPUT_ADDED; LRM_EVENT_OUTPUT_ADDED]
  /\ map call_event (snd (handleMIDINotification mac_observer mac_system setup_changed))
     <> [LRM_EVENT_OUTPUT_ADDED].
Proof. repeat split; vm_compute; discriminate. Qed.

(** C4, as the code has it.  On the CoreMIDI path a setup-changed
    notification re-reads both port lists (when the wrapped observer is
    present) without taking a diff and, when a callback is registered,
    calls it once for [LRM_EVENT_INPUT_ADDED] and once for
    [LRM_EVENT_OUTPUT_ADDED], whatever changed.  On the Android path a
    device-added (device-removed) signal handles a direction only if its
    added (removed) callback is configured: the direction is then
    re-enumerated, the callback is called once per port whose key is not
    in the cached (not in the new) snapshot, inputs first, and the new
    snapshot is stored; a direction whose callback is not configured is
    neither refreshed nor reported.  With both added-callbacks
    configured, when every input key is cached and the outputs are the
    cached ones followed by one port with a new key, the only callback of
    a device-added signal is the output-added one for that port. *)
Theorem ambiguous_signal_refresh :
  (forall (obs : LrmObserver) (sys : backend) (child : MIDIObjectType),
      let r := handleMIDINotification obs sys
                 (mk_notification kMIDIMsgSetupChanged child) in
      input_ports (fst r)
      = (if Ffi.observer obs then Ffi.get_input_ports sys else input_ports obs)
      /\ output_ports (fst r)
         = (if Ffi.observer obs then Ffi.get_output_ports sys else output_ports obs)
      /\ map call_event (snd r)
         = if hotplug_callback obs =? 0 then []
           else [LRM_EVENT_INPUT_ADDED; LRM_EVENT_OUTPUT_ADDED])
  /\ (forall (o : observer) (w : jni),
        let c := configuration o in
        on_device_added o w
        = (mk_android_observer c (midi_manager o) (device_callback o)
             (if input_added c then get_input_ports w else cached_inputs o)
             (if output_added c then get_output_ports w else cached_outputs o),
           (if input_added c
            then map InputAdded (spec_added (cached_inputs o) (get_input_ports w))
            else [])
           ++ (if output_added c
               then map OutputAdded (spec_added (cached_outputs o) (get_output_ports w))
               else [])))
  /\ (forall (o : observer) (w : jni),
        let c := configuration o in
        on_device_removed o w
        = (mk_android_observer c (midi_manager o) (device_callback o)
             (if input_removed c then get_input_ports w else cached_inputs o)
             (if output_removed c then get_output_ports w else cached_outputs o),
           (if input_removed c
            then map InputRemoved (spec_removed (cached_inputs o) (get_input_ports w))
            else [])
           ++ (if output_removed c
               then map OutputRemoved
                      (spec_removed (cached_outputs o) (get_output_ports w))
               else [])))
  /\ (forall (o : observer) (w : jni) (p : port_information),
        input_added (configuration o) = true ->
        output_added (configuration o) = true ->
        (forall q, q ∈ get_input_ports w ->
                   port_key q ∈ map port_key (cached_inputs o)) ->
        get_output_ports w = cached_outputs o ++ [p] ->
        port_key p ∉ map port_key (cached_outputs o) ->
        snd (on_device_added o w) = [OutputAdded p]
        /\ cached_inputs (fst (on_device_added o w)) = get_input_ports w
        /\ cached_outputs (fst (on_device_added o w)) = get_output_ports w).
Proof.
  split; [|split; [|split]].
  - intros obs sys child. simpl.
    unfold refreshInternal, notifyHotplug.
    destruct (Ffi.observer obs); simpl;
      destruct (hotplug_callback obs =? 0); auto.
  - intros o w. apply on_device_added_eq.
  - intros o w. apply on_device_removed_eq.
  - intros o w p Hi Ho Hin Hout Hp.
    rewrite on_device_added_eq. simpl. rewrite Hi, Ho.
    rewrite spec_added_nil by assumption.
    rewrite Hout, spec_added_one by assumption. auto.
Qed.

Lemma ambiguous_signal_refresh_witness :
  cached_outputs android_observer = []
  /\ get_input_ports world_after = cached_inputs android_observer
  /\ snd (on_device_added android_observer world_after) = [OutputAdded synth_port].
Proof.
  split; [reflexivity|]. split; [reflexivity|].
  apply (proj2 (proj2 (proj2 ambiguous_signal_refresh))
           android_observer world_after synth_port).
  - reflexivity.
  - reflexivity.
  - intros q Hq. apply list_elem_of_fmap. exists q. split; [reflexivity|exact Hq].
  - reflexivity.
  - vm_compute. apply not_elem_of_nil.
Defined.

(** ** Enumeration failures *)

(** C7, on the Android path.  The keyboard is still plugged in but the
    JNI environment cannot be obtained: the device-removed handler
    reports the cached port as removed and leaves an empty cache, and the
    next successful device-added signal reports the same port as added. *)
Lemma failed_enumeration_reports_removal :
  cached_inputs android_observer = [keyboard_port]
  /\ get_input_ports world_failed = []
  /\ snd (on_device_removed android_observer world_failed) = [InputRemoved keyboard_port]
  /\ cached_inputs (fst (on_device_removed android_observer world_failed)) = []
  /\ snd (on_device_added (fst (on_device_removed android_observer world_failed))
                          world_before)
     = [InputAdded keyboard_port].
Proof. repeat split; vm_compute; reflexivity. Qed.

(** C7, as the code has it.  An enumeration that cannot get the JNI
    environment or the application context returns the empty list (the
    functions are total: nothing is thrown).  The handlers treat it as
    any other snapshot: the device-added handler makes no callback and
    stores the empty list for every direction whose added-callback is
    configured; the device-removed handler calls back for every cached
    port of every direction whose removed-callback is configured and
    stores the empty list for it.  On the CoreMIDI path [refreshInternal]
    keeps the lists only when the wrapped observer is null and otherwise
    replaces them by what the observer returns. *)
Theorem failed_enumeration_behaviour :
  (forall (o : observer) (w : jni),
      thread_env w = false \/ app_context w = false ->
      let c := configuration o in
      get_input_ports w = [] /\ get_output_ports w = []
      /\ on_device_added o w
         = (mk_android_observer c (midi_manager o) (device_callback o)
              (if input_added c then [] else cached_inputs o)
              (if output_added c then [] else cached_outputs o),
            [])
      /\ on_device_removed o w
         = (mk_android_observer c (midi_manager o) (device_callback o)
              (if input_removed c then [] else cached_inputs o)
              (if output_removed c then [] else cached_outputs o),
            (if input_removed c then map InputRemoved (cached_inputs o) else [])
            ++ (if output_removed c then map OutputRemoved (cached_outputs o) else [])))
  /\ (forall (obs : LrmObserver) (sys : backend),
        (Ffi.observer obs = false -> refreshInternal obs sys = obs)
        /\ (Ffi.observer obs = true ->
            input_ports (refreshInternal obs sys) = Ffi.get_input_ports sys
            /\ output_ports (refreshInternal obs sys) = Ffi.get_output_ports sys)).
Proof.
  split.
  - intros o w Hfail c.
    assert (Ein : get_input_ports w = []) by now apply enumerate_failed.
    assert (Eout : get_output_ports w = []) by now apply enumerate_failed.
    split; [exact Ein|]. split; [exact Eout|].
    rewrite on_device_added_eq, on_device_removed_eq. fold c.
    rewrite Ein, Eout, !spec_removed_all. unfold spec_added. rewrite !filter_nil.
    split.
    + destruct (input_added c), (output_added c); reflexivity.
    + reflexivity.
  - intros obs sys. unfold refreshInternal. split; intros ->; auto.
Qed.

Lemma failed_enumeration_behaviour_witness :
  on_device_removed android_observer world_failed
  = (mk_android_observer (mk_conf true true true true false) true true [] [],
     [InputRemoved keyboard_port]).
Proof.
  rewrite (proj2 (proj2 (proj2
             (proj1 failed_enumeration_behaviour android_observer world_failed
                    (or_introl eq_refl))))).
  reflexivity.
Defined.

(** ** Disposal and the dispatch path *)

(** Once [clear_hotplug_observer] has run, no device signal calls a
    handler. *)
Lemma cleared_slot_is_silent (g : gate) (observer_ptr : Z) :
  onDeviceAddedNative (clear_hotplug_observer g) observer_ptr = None
  /\ onDeviceRemovedNative (clear_hotplug_observer g) observer_ptr = None.
Proof. split; reflexivity. Qed.

(** The Android destructor reaches [clear_hotplug_observer] under its own
    guard: the JNI environment is available and both the manager and the
    device callback were obtained. *)
Lemma observer_dtor_clears_slot (o : observer) (w : jni) (g : gate) (observer_ptr : Z) :
  thread_env w = true -> midi_manager o = true -> device_callback o = true ->
  onDeviceAddedNative (observer_dtor o w g) observer_ptr = None
  /\ onDeviceRemovedNative (observer_dtor o w g) observer_ptr = None.
Proof.
  intros He Hm Hd. unfold observer_dtor. rewrite He, Hm, Hd. simpl.
  split; reflexivity.
Qed.

(** Outside that guard the destructor leaves the slot as it finds it. *)
Lemma observer_dtor_keeps_slot (o : observer) (w : jni) (g : gate) :
  thread_env w = false \/ midi_manager o = false \/ device_callback o = false ->
  observer_dtor o w g = g.
Proof.
  unfold observer_dtor. intros [-> | [-> | ->]]; [reflexivity| |].
  - now destruct (thread_env w).
  - destruct (thread_env w); [|reflexivity]. now rewrite andb_false_r.
Qed.

(** C5, where the code departs from it.  An Android observer is
    constructed with its callbacks and registered (manager and device
    callback obtained, slot set to its pointer).  Its destructor runs
    while [get_thread_env] answers null: the guard is not entered, the
    slot keeps the pointer, and the device-added and device-removed entry
    points still call the handlers with the pointer of the destroyed
    observer.  The same happens, with the JNI environment available, to
    an observer whose device callback could not be created, since the
    constructor registered it all the same.  With the environment
    available and the device callback present the same destructor clears
    the slot. *)
Theorem dispose_outside_guard_keeps_slot :
  (midi_manager android_observer = true
   /\ device_callback android_observer = true
   /\ g_active_hotplug_observer android_slot = 4096
   /\ observer_dtor android_observer world_failed android_slot = android_slot
   /\ onDeviceAddedNative
        (observer_dtor android_observer world_failed android_slot) 4096
      = Some (on_device_added_static, 4096)
   /\ onDeviceRemovedNative
        (observer_dtor android_observer world_failed android_slot) 4096
      = Some (on_device_removed_static, 4096))
  /\ (midi_manager unregistered_observer = true
      /\ device_callback unregistered_observer = false
      /\ g_active_hotplug_observer unregistered_slot = 4096
      /\ onDeviceAddedNative
           (observer_dtor unregistered_observer world_before unregistered_slot) 4096
         = Some (on_device_added_static, 4096)
      /\ onDeviceRemovedNative
           (observer_dtor unregistered_observer world_before unregistered_slot) 4096
         = Some (on_device_removed_static, 4096))
  /\ (onDeviceAddedNative
        (observer_dtor android_observer world_before android_slot) 4096 = None
      /\ onDeviceRemovedNative
           (observer_dtor android_observer world_before android_slot) 4096 = None).
Proof. repeat split. Qed.

(** ** Handles *)

(** C6.  The first [lrm_observer_free] of a live handle returns; the
    second one on the same handle deletes an object that is no longer
    there. *)
Lemma second_free_is_undefined :
  lrm_observer_free one_observer 4096 = Returns (delete 4096 one_observer)
  /\ lrm_observer_free (delete 4096 one_observer) 4096 = Undefined
  /\ lrm_observer_free (delete 4096 one_observer) 4096
     <> Returns (delete 4096 one_observer).
Proof. split; [reflexivity|]. split; [reflexivity|discriminate]. Qed.

(** C6, as the code has it.  Freeing the null handle does nothing,
    however often it is repeated, and the destructor body leaves the same
    fields when run again; freeing a live handle returns and removes the
    observer, after which a second free of that handle is undefined (a
    double [delete]). *)
Theorem observer_free_twice :
  (forall heap : gmap Z LrmObserver, lrm_observer_free heap 0 = Returns heap)
  /\ (forall o : LrmObserver, LrmObserver_dtor (LrmObserver_dtor o) = LrmObserver_dtor o)
  /\ (forall (heap : gmap Z LrmObserver) (h : Z) (o : LrmObserver),
        h <> 0 -> heap !! h = Some o ->
        lrm_observer_free heap h = Returns (delete h heap)
        /\ lrm_observer_free (delete h heap) h = Undefined).
Proof.
  split; [reflexivity|]. split; [reflexivity|].
  intros heap h o Hh Ho. unfold lrm_observer_free.
  apply Z.eqb_neq in Hh. rewrite Hh, Ho, lookup_delete_eq. auto.
Qed.

Lemma observer_free_twice_witness :
  lrm_observer_free one_observer 4096 = Returns (delete 4096 one_observer)
  /\ lrm_observer_free (delete 4096 one_observer) 4096 = Undefined.
Proof.
  apply (proj2 (proj2 observer_free_twice) one_observer 4096 mac_observer).
  - discriminate.
  - reflexivity.
Defined.

(** ** Queries *)

Section QueryFacts.

Lemma to_int32_small (z : Z) : 0 <= z < 2 ^ 31 -> Int.to_int32 z = z.
Proof.
  intros Hz. unfold Int.to_int32.
  rewrite Z.mod_small by lia. lia.
Qed.

Variables (ports : list port_information) (index : Z) (is_input : bool).
Hypothesis fits : Z.of_nat (length ports) < 2 ^ 31.

Lemma get_port_not_found :
  index < 0 \/ Z.of_nat (length ports) <= index ->
  get_port ports index is_input = Returns (LRM_ERR_NOT_FOUND, None).
Proof.
  intros Hout. unfold get_port. rewrite to_int32_small by lia.
  destruct (index <? 0) eqn:Hneg; [reflexivity|].
  apply Z.ltb_ge in Hneg.
  destruct (index >=? Z.of_nat (length ports)) eqn:Hge; [reflexivity|].
  rewrite Z.geb_leb in Hge. apply Z.leb_gt in Hge. lia.
Qed.

Lemma get_port_found :
  0 <= index < Z.of_nat (length ports) ->
  exists p, ports !! Z.to_nat index = Some p
            /\ get_port ports index is_input
               = Returns (LRM_OK, Some (fill_port_info p index is_input)).
Proof.
  intros Hin. unfold get_port. rewrite to_int32_small by lia.
  destruct (index <? 0) eqn:Hneg; [apply Z.ltb_lt in Hneg; lia|].
  destruct (index >=? Z.of_nat (length ports)) eqn:Hge.
  { rewrite Z.geb_leb in Hge. apply Z.leb_le in Hge. lia. }
  destruct (lookup_lt_is_Some_2 ports (Z.to_nat index)) as [p Hp]; [lia|].
  exists p. rewrite Hp. auto.
Qed.

Lemma get_port_not_found_iff :
  index < 0 \/ Z.of_nat (length ports) <= index
  <-> get_port ports index is_input = Returns (LRM_ERR_NOT_FOUND, None).
Proof.
  split; [apply get_port_not_found|].
  intros E.
  destruct (Z_lt_dec index 0) as [|Hnn]; [now left|].
  destruct (Z_le_dec (Z.of_nat (length ports)) index) as [|Hlt]; [now right|].
  destruct get_port_found as (p & _ & E'); [lia|].
  rewrite E' in E. discriminate.
Qed.

End QueryFacts.

Lemma get_port_written (ports : list port_information) (index code : Z)
    (is_input : bool) (r : LrmPortInfo) :
  get_port ports index is_input = Returns (code, Some r) ->
  exists p, ports !! Z.to_nat index = Some p /\ r = fill_port_info p index is_input.
Proof.
  unfold get_port.
  destruct (_ || _); [discriminate|].
  destruct (ports !! Z.to_nat index) as [p|]; [|discriminate].
  intros E. inversion E. eauto.
Qed.

(** C8, on a disposed observer.  After [lrm_observer_free] the handle is
    still non-null; the query does not answer [LRM_ERR_INVALID], it reads
    the freed observer. *)
Lemma get_on_disposed_is_undefined :
  lrm_observer_free one_observer 4096 = Returns (delete 4096 one_observer)
  /\ lrm_observer_get_input (delete 4096 one_observer) 4096 0 1 = Undefined
  /\ lrm_observer_get_output (delete 4096 one_observer) 4096 0 1 = Undefined
  /\ lrm_observer_get_input (delete 4096 one_observer) 4096 0 1
     <> Returns (LRM_ERR_INVALID, None).
Proof. repeat split; try reflexivity. discriminate. Qed.

(** C8, as the code has it.  With a null observer or a null output
    struct both queries answer [LRM_ERR_INVALID].  With a live observer
    whose port count fits [int32_t] and a non-null struct, the answer is
    [LRM_ERR_NOT_FOUND] exactly when the index is negative or at least
    the port count of that direction, and otherwise [LRM_OK] with the
    struct filled from the cached port at that index.  A non-null handle
    that is not live (a disposed observer) is not detected: the query
    dereferences it. *)
Theorem get_port_codes (heap : gmap Z LrmObserver) (h index info : Z) :
  ((h = 0 \/ info = 0) ->
   lrm_observer_get_input heap h index info = Returns (LRM_ERR_INVALID, None)
   /\ lrm_observer_get_output heap h index info = Returns (LRM_ERR_INVALID, None))
  /\ (forall o : LrmObserver,
        h <> 0 -> info <> 0 -> heap !! h = Some o ->
        (Z.of_nat (length (input_ports o)) < 2 ^ 31 ->
         ((index < 0 \/ Z.of_nat (length (input_ports o)) <= index)
          <-> lrm_observer_get_input heap h index info
              = Returns (LRM_ERR_NOT_FOUND, None))
         /\ (0 <= index < Z.of_nat (length (input_ports o)) ->
             exists p, input_ports o !! Z.to_nat index = Some p
                       /\ lrm_observer_get_input heap h index info
                          = Returns (LRM_OK, Some (fill_port_info p index true))))
        /\ (Z.of_nat (length (output_ports o)) < 2 ^ 31 ->
            ((index < 0 \/ Z.of_nat (length (output_ports o)) <= index)
             <-> lrm_observer_get_output heap h index info
                 = Returns (LRM_ERR_NOT_FOUND, None))
            /\ (0 <= index < Z.of_nat (length (output_ports o)) ->
                exists p, output_ports o !! Z.to_nat index = Some p
                          /\ lrm_observer_get_output heap h index info
                             = Returns (LRM_OK, Some (fill_port_info p index false)))))
  /\ (h <> 0 -> info <> 0 -> heap !! h = None ->
      lrm_observer_get_input heap h index info = Undefined
      /\ lrm_observer_get_output heap h index info = Undefined).
Proof.
  unfold lrm_observer_get_input, lrm_observer_get_output.
  split; [|split].
  - intros [-> | ->]; [split; reflexivity|].
    rewrite orb_true_r. split; reflexivity.
  - intros o Hh Hi Ho.
    apply Z.eqb_neq in Hh, Hi. rewrite Hh, Hi, Ho. simpl.
    split; intros Hfit; split;
      auto using get_port_not_found_iff, get_port_found.
  - intros Hh Hi Hnone.
    apply Z.eqb_neq in Hh, Hi. rewrite Hh, Hi, Hnone. split; reflexivity.
Qed.

Lemma get_port_codes_witness :
  lrm_observer_get_input one_observer 0 0 1 = Returns (LRM_ERR_INVALID, None)
  /\ lrm_observer_get_input one_observer 4096 1 1 = Returns (LRM_ERR_NOT_FOUND, None)
  /\ (exists p, input_ports mac_observer !! Z.to_nat 0 = Some p
                /\ lrm_observer_get_input one_observer 4096 0 1
                   = Returns (LRM_OK, Some (fill_port_info p 0 true))).
Proof.
  split; [|split].
  - apply (proj1 (get_port_codes one_observer 0 0 1)). left. reflexivity.
  - apply (proj1 (proj2 (get_port_codes one_observer 4096 1 1)) mac_observer);
      [discriminate | discriminate | reflexivity | simpl; lia | simpl; lia].
  - apply (proj1 (proj2 (get_port_codes one_observer 4096 0 1)) mac_observer);
      [discriminate | discriminate | reflexivity | simpl; lia | simpl; lia].
Defined.

(** C10.  In every struct written by [lrm_observer_get_input] or
    [lrm_observer_get_output], [is_virtual] is true exactly when the
    transport type of the cached port is [software] or [loopback]; it is
    false for [unknown] and for every type with the [hardware] bit. *)
Theorem is_virtual_software_or_loopback :
  (forall (p : port_information) (index : Z) (is_input : bool),
      (info_is_virtual (fill_port_info p index is_input) = true
       <-> type p = LRM_TRANSPORT_SOFTWARE \/ type p = LRM_TRANSPORT_LOOPBACK)
      /\ (type p = LRM_TRANSPORT_UNKNOWN
          \/ Z.land (type p) LRM_TRANSPORT_HARDWARE = LRM_TRANSPORT_HARDWARE ->
          info_is_virtual (fill_port_info p index is_input) = false))
  /\ (forall (heap : gmap Z LrmObserver) (h index info code : Z) (r : LrmPortInfo),
        lrm_observer_get_input heap h index info = Returns (code, Some r) ->
        exists o p, heap !! h = Some o
                    /\ input_ports o !! Z.to_nat index = Some p
                    /\ r = fill_port_info p index true)
  /\ (forall (heap : gmap Z LrmObserver) (h index info code : Z) (r : LrmPortInfo),
        lrm_observer_get_output heap h index info = Returns (code, Some r) ->
        exists o p, heap !! h = Some o
                    /\ output_ports o !! Z.to_nat index = Some p
                    /\ r = fill_port_info p index false).
Proof.
  split; [|split].
  - intros p index is_input. simpl. unfold is_virtual_type.
    rewrite orb_true_iff, !Z.eqb_eq. split; [tauto|].
    intros Hother.
    apply orb_false_iff. rewrite !Z.eqb_neq.
    destruct Hother as [-> | Hhw]; [split; discriminate|].
    split; intros E; rewrite E in Hhw; discriminate.
  - intros heap h index info code r. unfold lrm_observer_get_input.
    destruct (_ || _); [discriminate|].
    destruct (heap !! h) as [o|]; [|discriminate].
    intros E. apply get_port_written in E as (p & Hp & ->). eauto.
  - intros heap h index info code r. unfold lrm_observer_get_output.
    destruct (_ || _); [discriminate|].
    destruct (heap !! h) as [o|]; [|discriminate].
    intros E. apply get_port_written in E as (p & Hp & ->). eauto.
Qed.

Lemma is_virtual_software_or_loopback_witness :
  info_is_virtual (fill_port_info bus1_first 0 true) = true
  /\ info_is_virtual (fill_port_info synth_port 0 false) = false
  /\ (exists o p, one_observer !! 4096 = Some o
                  /\ input_ports o !! Z.to_nat 0 = Some p
                  /\ fill_port_info (port_named "A" 1) 0 true
                     = fill_port_info p 0 true).
Proof.
  split; [|split].
  3: { apply (proj1 (proj2 is_virtual_software_or_loopback)
                     one_observer 4096 0 1 LRM_OK).
       reflexivity. }
  - apply (proj1 (proj1 is_virtual_software_or_loopback bus1_first 0 true)).
    left. reflexivity.
  - apply (proj2 (proj1 is_virtual_software_or_loopback synth_port 0 false)).
    right. reflexivity.
Defined.

(* ===================================================================== *)
(** * Further properties of the code *)
(* ===================================================================== *)

(** ** Copying strings into the fixed buffers *)

Section CopyFacts.

Lemma take_chars_length (n : nat) (s : string) :
  (String.length (take_chars n s) <= n)%nat.
Proof.
  revert s. induction n as [|n IH]; intros [|c s]; simpl; try lia.
  specialize (IH s). lia.
Qed.

Lemma take_chars_split (n : nat) (s : string) :
  exists rest, s = take_chars n s +:+ rest.
Proof.
  revert s. induction n as [|n IH]; intros [|c s]; cbn;
    try (eexists; reflexivity).
  destruct (IH s) as [rest E]. exists rest.
  change (String c s = String c (take_chars n s +:+ rest)). now f_equal.
Qed.

Lemma c_str_split (s : string) : exists rest, s = c_str s +:+ rest.
Proof.
  induction s as [|c s [rest E]]; cbn; [now exists ""|].
  destruct (Ascii.eqb c zero); [eexists; reflexivity|].
  exists rest.
  change (String c s = String c (c_str s +:+ rest)). now f_equal.
Qed.

Lemma c_str_no_nul (s : string) : contains_char zero (c_str s) = false.
Proof.
  induction s as [|c s IH]; simpl; [reflexivity|].
  destruct (Ascii.eqb c zero) eqn:E; simpl; [reflexivity|]. now rewrite E.
Qed.

Lemma take_chars_no_char (c : ascii) (n : nat) (s : string) :
  contains_char c s = false -> contains_char c (take_chars n s) = false.
Proof.
  revert s. induction n as [|n IH]; intros [|x s]; simpl; auto.
  destruct (Ascii.eqb x c); [discriminate|]. apply IH.
Qed.

Lemma c_str_id (s : string) : contains_char zero s = false -> c_str s = s.
Proof.
  induction s as [|c s IH]; simpl; [reflexivity|].
  destruct (Ascii.eqb c zero); [discriminate|].
  intros H. now rewrite IH.
Qed.

Lemma take_chars_id (n : nat) (s : string) :
  (String.length s <= n)%nat -> take_chars n s = s.
Proof.
  revert s. induction n as [|n IH]; intros [|c s]; simpl; try reflexivity; try lia.
  intros H. rewrite IH by lia. reflexivity.
Qed.

Lemma safe_strcpy_length (dest_size : nat) (src : string) :
  (String.length (safe_strcpy dest_size src) <= dest_size - 1)%nat.
Proof. apply take_chars_length. Qed.

Lemma safe_strcpy_no_nul (dest_size : nat) (src : string) :
  contains_char zero (safe_strcpy dest_size src) = false.
Proof. apply take_chars_no_char, c_str_no_nul. Qed.

End CopyFacts.

(** X1.  For a buffer of at least one char, [safe_strcpy] never writes
    more than [dest_size - 1] chars before the terminator, what it leaves
    in the buffer contains no NUL, and it is a prefix of the source. *)
Theorem safe_strcpy_fits (dest_size : nat) (src : string) :
  (0 < dest_size)%nat ->
  (String.length (safe_strcpy dest_size src) < dest_size)%nat
  /\ contains_char zero (safe_strcpy dest_size src) = false
  /\ exists rest, src = safe_strcpy dest_size src +:+ rest.
Proof.
  intros Hsize.
  split; [pose proof (safe_strcpy_length dest_size src); lia|].
  split; [apply safe_strcpy_no_nul|].
  unfold safe_strcpy.
  destruct (c_str_split src) as [r1 E1].
  destruct (take_chars_split (dest_size - 1) (c_str src)) as [r2 E2].
  exists (r2 +:+ r1). rewrite <- append_assoc, <- E2. exact E1.
Qed.

Lemma safe_strcpy_fits_witness :
  (String.length (safe_strcpy 4 "Bus 1") < 4)%nat
  /\ contains_char zero (safe_strcpy 4 "Bus 1") = false
  /\ exists rest, "Bus 1" = safe_strcpy 4 "Bus 1" +:+ rest.
Proof.
  apply (safe_strcpy_fits 4 "Bus 1"). lia.
Defined.

(** X2.  For a buffer of at least one char, the copy equals the source
    exactly when the source has no embedded NUL and is shorter than the
    buffer; otherwise it is cut. *)
Theorem safe_strcpy_exact (dest_size : nat) (src : string) :
  (0 < dest_size)%nat ->
  (safe_strcpy dest_size src = src
   <-> contains_char zero src = false /\ (String.length src < dest_size)%nat).
Proof.
  intros Hsize. split.
  - intros E. split.
    + rewrite <- E. apply safe_strcpy_no_nul.
    + pose proof (safe_strcpy_length dest_size src) as Hlen.
      rewrite E in Hlen. lia.
  - intros [Hnul Hlen]. unfold safe_strcpy.
    rewrite c_str_id by assumption. apply take_chars_id. lia.
Qed.

Lemma safe_strcpy_exact_witness :
  safe_strcpy 256 "IAC Driver Bus 1" = "IAC Driver Bus 1"
  /\ safe_strcpy 4 "Bus 1" <> "Bus 1".
Proof.
  split.
  - apply (proj2 (safe_strcpy_exact 256 "IAC Driver Bus 1" ltac:(lia))).
    split; [reflexivity | simpl; lia].
  - intros E. apply (proj1 (safe_strcpy_exact 4 "Bus 1" ltac:(lia))) in E.
    simpl in E. lia.
Defined.

(** X3.  Every string of a filled [LrmPortInfo] fits its buffer with the
    terminator (255 chars, 127 for the serial), and the integers are in
    the range of their C types. *)
Theorem fill_port_info_fits (p : port_information) (index : Z) (is_input : bool) :
  let r := fill_port_info p index is_input in
  (String.length (info_display_name r) <= 255
   /\ String.length (info_port_name r) <= 255
   /\ String.length (info_device_name r) <= 255
   /\ String.length (info_manufacturer r) <= 255
   /\ String.length (info_product r) <= 255
   /\ String.length (info_serial r) <= 127)%nat
  /\ 0 <= info_port_id r < 2 ^ 64
  /\ 0 <= info_client_handle r < 2 ^ 64
  /\ 0 <= info_transport_type r < 2 ^ 8
  /\ info_index r = index /\ info_is_input r = is_input.
Proof.
  simpl. repeat split;
    try (apply (safe_strcpy_length 256));
    try (apply (safe_strcpy_length 128));
    try (apply Z.mod_pos_bound; lia).
Qed.

(** X4.  For a transport type in the range of [uint8_t] the byte written
    to [transport_type] is the type itself, and [is_virtual] is set
    exactly when that byte is [LRM_TRANSPORT_SOFTWARE] or
    [LRM_TRANSPORT_LOOPBACK]. *)
Theorem is_virtual_matches_transport_byte
    (p : port_information) (index : Z) (is_input : bool) :
  0 <= type p < 2 ^ 8 ->
  let r := fill_port_info p index is_input in
  info_transport_type r = type p
  /\ (info_is_virtual r = true
      <-> info_transport_type r = LRM_TRANSPORT_SOFTWARE
          \/ info_transport_type r = LRM_TRANSPORT_LOOPBACK).
Proof.
  intros Hrange. simpl. unfold Int.u8. rewrite Z.mod_small by assumption.
  split; [reflexivity|].
  unfold is_virtual_type. rewrite orb_true_iff, !Z.eqb_eq. tauto.
Qed.

Lemma is_virtual_matches_transport_byte_witness :
  info_transport_type (fill_port_info bus1_first 0 true) = LRM_TRANSPORT_SOFTWARE
  /\ (info_is_virtual (fill_port_info bus1_first 0 true) = true
      <-> info_transport_type (fill_port_info bus1_first 0 true) = LRM_TRANSPORT_SOFTWARE
          \/ info_transport_type (fill_port_info bus1_first 0 true)
             = LRM_TRANSPORT_LOOPBACK).
Proof.
  apply (is_virtual_matches_transport_byte bus1_first 0 true).
  simpl. unfold LRM_TRANSPORT_SOFTWARE. lia.
Defined.

(** ** The hash *)

Section HashFacts.

Lemma u64_range (z : Z) : 0 <= Int.u64 z < 2 ^ 64.
Proof. apply Z.mod_pos_bound. lia. Qed.

Lemma char_to_u64_range (c : ascii) : 0 <= Int.char_to_u64 c < 2 ^ 64.
Proof.
  unfold Int.char_to_u64. cbv zeta.
  pose proof (N_ascii_bounded c) as Hb.
  destruct (Z.of_N (N_of_ascii c) <? 128) eqn:E.
  - apply Z.ltb_lt in E. lia.
  - apply u64_range.
Qed.

Lemma char_to_u64_inj (c1 c2 : ascii) :
  Int.char_to_u64 c1 = Int.char_to_u64 c2 -> c1 = c2.
Proof.
  unfold Int.char_to_u64, Int.u64. cbv zeta.
  pose proof (N_ascii_bounded c1) as Hb1.
  pose proof (N_ascii_bounded c2) as Hb2.
  intros E.
  assert (Hwrap : forall n, 128 <= n < 256 -> (n - 256) mod 2 ^ 64 = n - 256 + 2 ^ 64).
  { intros n Hn. symmetry. apply (Z.mod_unique _ _ (-1)); lia. }
  assert (En : N_of_ascii c1 = N_of_ascii c2).
  { destruct (Z.of_N (N_of_ascii c1) <? 128) eqn:E1;
      destruct (Z.of_N (N_of_ascii c2) <? 128) eqn:E2;
      rewrite ?Z.ltb_lt, ?Z.ltb_ge in E1, E2;
      rewrite ?Hwrap in E by lia; lia. }
  rewrite <- (ascii_N_embedding c1), <- (ascii_N_embedding c2). now rewrite En.
Qed.

Lemma lxor_range (a b : Z) :
  0 <= a < 2 ^ 64 -> 0 <= b < 2 ^ 64 -> 0 <= Z.lxor a b < 2 ^ 64.
Proof.
  intros Ha Hb.
  assert (Hnn : 0 <= Z.lxor a b) by (apply Z.lxor_nonneg; lia).
  split; [exact Hnn|].
  destruct (Z.eq_dec (Z.lxor a b) 0) as [-> | Hne]; [lia|].
  apply Z.log2_lt_pow2; [lia|].
  pose proof (Z.log2_lxor a b (proj1 Ha) (proj1 Hb)) as Hl.
  assert (Z.log2 a < 64).
  { destruct (Z.eq_dec a 0) as [-> | ?]; [simpl; lia|].
    apply Z.log2_lt_pow2; lia. }
  assert (Z.log2 b < 64).
  { destruct (Z.eq_dec b 0) as [-> | ?]; [simpl; lia|].
    apply Z.log2_lt_pow2; lia. }
  lia.
Qed.

Lemma lxor_cancel_l (h a b : Z) : Z.lxor h a = Z.lxor h b -> a = b.
Proof.
  intros E. apply (f_equal (Z.lxor h)) in E.
  now rewrite <- !Z.lxor_assoc, Z.lxor_nilpotent, !Z.lxor_0_l in E.
Qed.

Lemma lxor_cancel_r (a b c : Z) : Z.lxor a c = Z.lxor b c -> a = b.
Proof. rewrite !(Z.lxor_comm _ c). apply lxor_cancel_l. Qed.

(** Multiplying by the FNV prime is a bijection of the 64-bit words. *)
Lemma mul_prime_inj (x y : Z) :
  0 <= x < 2 ^ 64 -> 0 <= y < 2 ^ 64 ->
  Int.u64 (x * FNV_prime) = Int.u64 (y * FNV_prime) -> x = y.
Proof.
  intros Hx Hy E. unfold Int.u64 in E.
  assert (Hinv : forall z, 0 <= z < 2 ^ 64 ->
            ((z * FNV_prime) mod 2 ^ 64 * FNV_prime_inverse) mod 2 ^ 64 = z).
  { intros z Hz.
    rewrite Z.mul_mod_idemp_l by lia.
    rewrite <- Z.mul_assoc, <- Z.mul_mod_idemp_r by lia.
    change ((FNV_prime * FNV_prime_inverse) mod 2 ^ 64) with 1.
    rewrite Z.mul_1_r. now apply Z.mod_small. }
  rewrite <- (Hinv x Hx), <- (Hinv y Hy). now rewrite E.
Qed.

Lemma fnv1a_step_range (h : Z) (c : ascii) : 0 <= fnv1a_step h c < 2 ^ 64.
Proof. apply u64_range. Qed.

Lemma fnv1a_step_inj_hash (h1 h2 : Z) (c : ascii) :
  0 <= h1 < 2 ^ 64 -> 0 <= h2 < 2 ^ 64 ->
  fnv1a_step h1 c = fnv1a_step h2 c -> h1 = h2.
Proof.
  intros H1 H2 E. unfold fnv1a_step in E.
  pose proof (char_to_u64_range c) as Hc.
  apply mul_prime_inj in E; [|now apply lxor_range..].
  now apply lxor_cancel_r in E.
Qed.

Lemma fnv1a_step_inj_char (h : Z) (c1 c2 : ascii) :
  0 <= h < 2 ^ 64 -> fnv1a_step h c1 = fnv1a_step h c2 -> c1 = c2.
Proof.
  intros Hh E. unfold fnv1a_step in E.
  apply mul_prime_inj in E; [|apply lxor_range; auto using char_to_u64_range..].
  apply lxor_cancel_l in E. now apply char_to_u64_inj.
Qed.

Lemma fnv1a_loop_range (h : Z) (s : string) :
  0 <= h < 2 ^ 64 -> 0 <= fnv1a_loop h s < 2 ^ 64.
Proof.
  revert h. induction s as [|c s IH]; intros h Hh; simpl; [exact Hh|].
  apply IH, fnv1a_step_range.
Qed.

Lemma fnv1a_loop_app (h : Z) (a b : string) :
  fnv1a_loop h (a +:+ b) = fnv1a_loop (fnv1a_loop h a) b.
Proof.
  revert h. induction a as [|c a IH]; intros h; [reflexivity|].
  change (fnv1a_loop (fnv1a_step h c) (a +:+ b)
          = fnv1a_loop (fnv1a_loop (fnv1a_step h c) a) b).
  apply IH.
Qed.

Lemma fnv1a_loop_inj (h1 h2 : Z) (s : string) :
  0 <= h1 < 2 ^ 64 -> 0 <= h2 < 2 ^ 64 ->
  fnv1a_loop h1 s = fnv1a_loop h2 s -> h1 = h2.
Proof.
  revert h1 h2. induction s as [|c s IH]; intros h1 h2 H1 H2 E; simpl in E;
    [exact E|].
  apply IH in E; [|apply fnv1a_step_range..].
  now apply fnv1a_step_inj_hash in E.
Qed.

Lemma FNV_offset_basis_range : 0 <= FNV_offset_basis < 2 ^ 64.
Proof. unfold FNV_offset_basis. lia. Qed.

End HashFacts.

(** X5.  The hash is a 64-bit value and can be computed in pieces: the
    hash of [a ++ b] is the loop continued over [b] from the hash of
    [a]. *)
Theorem fnv1a_hash_streams (a b : string) :
  0 <= fnv1a_hash a < 2 ^ 64
  /\ fnv1a_hash (a +:+ b) = fnv1a_loop (fnv1a_hash a) b.
Proof.
  split.
  - apply fnv1a_loop_range, FNV_offset_basis_range.
  - apply fnv1a_loop_app.
Qed.

(** X6.  Two strings that differ in exactly one char never have the same
    hash: each step of the loop is a bijection of the 64-bit words, in
    the running hash and in the char.  Hence two ports whose keys differ
    in exactly one char get different stable ids. *)
Theorem fnv1a_hash_one_char (pre post : string) (c1 c2 : ascii) :
  c1 <> c2 ->
  fnv1a_hash (pre +:+ String c1 post) <> fnv1a_hash (pre +:+ String c2 post)
  /\ (forall (a b : port_information) (index_a index_b : Z) (in_a in_b : bool),
        port_key a = pre +:+ String c1 post ->
        port_key b = pre +:+ String c2 post ->
        info_stable_id (fill_port_info a index_a in_a)
        <> info_stable_id (fill_port_info b index_b in_b)).
Proof.
  intros Hne.
  assert (Hs : fnv1a_hash (pre +:+ String c1 post)
               <> fnv1a_hash (pre +:+ String c2 post)).
  { intros E. unfold fnv1a_hash in E.
    rewrite !fnv1a_loop_app in E. simpl in E.
    apply fnv1a_loop_inj in E; [|apply fnv1a_step_range..].
    apply fnv1a_step_inj_char in E; [contradiction|].
    apply fnv1a_loop_range, FNV_offset_basis_range. }
  split; [exact Hs|].
  intros a b index_a index_b in_a in_b Ka Kb. simpl. now rewrite Ka, Kb.
Qed.

Lemma fnv1a_hash_one_char_witness :
  info_stable_id
    (fill_port_info (make_port (refresh_midi_devices world_duo false) 0) 0 true)
  <> info_stable_id
       (fill_port_info (make_port (refresh_midi_devices world_duo false) 1) 1 true).
Proof.
  apply (proj2 (fnv1a_hash_one_char "Duo Port " "|Acme|D2|" "1" "2"
                  ltac:(discriminate))); reflexivity.
Defined.

(** ** CoreMIDI notifications *)

(** X7.  Whatever the notification, the observer keeps its callback, its
    context, its client and its wrapped observer; every call made goes to
    that callback with that context and an event type from 0 to 3; a
    setup-changed notification makes at most two calls and any other at
    most one; and a removal is only ever reported for an object-removed
    notification. *)
Theorem notification_keeps_registration
    (obs : LrmObserver) (sys : backend) (n : MIDINotification) :
  let r := handleMIDINotification obs sys n in
  (hotplug_callback (fst r) = hotplug_callback obs
   /\ hotplug_context (fst r) = hotplug_context obs
   /\ midiClient (fst r) = midiClient obs
   /\ Ffi.observer (fst r) = Ffi.observer obs)
  /\ (forall c, c ∈ snd r ->
        call_fn c = hotplug_callback obs /\ call_fn c <> 0
        /\ call_context c = hotplug_context obs
        /\ 0 <= call_event c <= 3
        /\ (call_event c = LRM_EVENT_INPUT_REMOVED
            \/ call_event c = LRM_EVENT_OUTPUT_REMOVED ->
            messageID n = kMIDIMsgObjectRemoved))
  /\ (length (snd r) <= 2)%nat
  /\ (messageID n <> kMIDIMsgSetupChanged -> (length (snd r) <= 1)%nat).
Proof.
  destruct n as [[| | |raw] [| |other]];
    unfold handleMIDINotification, refreshInternal, notifyHotplug; simpl;
    destruct (Ffi.observer obs) eqn:Hobs; simpl;
    destruct (hotplug_callback obs =? 0) eqn:Hcb; simpl;
    (split; [auto|]);
    (split; [|split; [lia | intros; try lia; congruence]]);
    intros c Hc;
    repeat (apply elem_of_cons in Hc as [-> | Hc]);
    try (apply elem_of_nil in Hc; contradiction);
    simpl; apply Z.eqb_neq in Hcb;
    unfold LRM_EVENT_INPUT_ADDED, LRM_EVENT_OUTPUT_ADDED,
      LRM_EVENT_INPUT_REMOVED, LRM_EVENT_OUTPUT_REMOVED;
    (repeat split; try lia; try assumption; intros [?|?]; try reflexivity; lia).
Qed.

Lemma notification_keeps_registration_witness :
  call_fn (mk_call 4096 77 LRM_EVENT_OUTPUT_ADDED) = hotplug_callback mac_observer
  /\ call_fn (mk_call 4096 77 LRM_EVENT_OUTPUT_ADDED) <> 0
  /\ call_context (mk_call 4096 77 LRM_EVENT_OUTPUT_ADDED) = hotplug_context mac_observer
  /\ 0 <= call_event (mk_call 4096 77 LRM_EVENT_OUTPUT_ADDED) <= 3
  /\ (call_event (mk_call 4096 77 LRM_EVENT_OUTPUT_ADDED) = LRM_EVENT_INPUT_REMOVED
      \/ call_event (mk_call 4096 77 LRM_EVENT_OUTPUT_ADDED) = LRM_EVENT_OUTPUT_REMOVED ->
      messageID setup_changed = kMIDIMsgObjectRemoved).
Proof.
  apply (proj1 (proj2 (notification_keeps_registration
                         mac_observer mac_system setup_changed))
           (mk_call 4096 77 LRM_EVENT_OUTPUT_ADDED)).
  vm_compute. right. left.
Defined.

(** ** Handles: creation, refresh, queries *)

Section HandleFacts.

Lemma get_port_at (ports : list port_information) (index : Z) (is_input : bool)
    (p : port_information) :
  0 <= index -> Z.of_nat (length ports) < 2 ^ 31 ->
  ports !! Z.to_nat index = Some p ->
  get_port ports index is_input = Returns (LRM_OK, Some (fill_port_info p index is_input)).
Proof.
  intros Hnn Hfit Hp.
  assert (Hlt : index < Z.of_nat (length ports)).
  { apply lookup_lt_Some in Hp. lia. }
  destruct (get_port_found ports index is_input Hfit) as (q & Hq & E); [lia|].
  congruence.
Qed.

End HandleFacts.

(** X8.  After [lrm_observer_refresh] on a live observer (with its
    wrapped observer present) the counts and the queries answer from the
    lists the backend has just returned, and no other observer of the
    process is touched. *)
Theorem refresh_then_query (heap : gmap Z LrmObserver) (h : Z) (o : LrmObserver)
    (sys : backend) :
  h <> 0 -> heap !! h = Some o -> Ffi.observer o = true ->
  exists heap',
    lrm_observer_refresh heap h sys = Returns heap'
    /\ (forall h', h' <> h -> heap' !! h' = heap !! h')
    /\ lrm_observer_get_input_count heap' h
       = Returns (Int.to_int32 (Z.of_nat (length (Ffi.get_input_ports sys))))
    /\ lrm_observer_get_output_count heap' h
       = Returns (Int.to_int32 (Z.of_nat (length (Ffi.get_output_ports sys))))
    /\ (forall index info p,
          info <> 0 -> 0 <= index ->
          Z.of_nat (length (Ffi.get_input_ports sys)) < 2 ^ 31 ->
          Ffi.get_input_ports sys !! Z.to_nat index = Some p ->
          lrm_observer_get_input heap' h index info
          = Returns (LRM_OK, Some (fill_port_info p index true)))
    /\ (forall index info p,
          info <> 0 -> 0 <= index ->
          Z.of_nat (length (Ffi.get_output_ports sys)) < 2 ^ 31 ->
          Ffi.get_output_ports sys !! Z.to_nat index = Some p ->
          lrm_observer_get_output heap' h index info
          = Returns (LRM_OK, Some (fill_port_info p index false))).
Proof.
  intros Hh Ho Hobs. apply Z.eqb_neq in Hh.
  exists (<[h := refresh o sys]> heap).
  unfold lrm_observer_refresh, lrm_observer_get_input_count,
    lrm_observer_get_output_count, lrm_observer_get_input, lrm_observer_get_output.
  rewrite Hh, Ho, !lookup_insert_eq.
  unfold refresh, refreshInternal. rewrite Hobs. simpl.
  split; [reflexivity|]. split; [|split; [reflexivity|split; [reflexivity|split]]].
  - intros h' Hne. now apply lookup_insert_ne.
  - intros index info p Hi Hnn Hfit Hp.
    apply Z.eqb_neq in Hi. rewrite Hi. now apply get_port_at.
  - intros index info p Hi Hnn Hfit Hp.
    apply Z.eqb_neq in Hi. rewrite Hi. now apply get_port_at.
Qed.

Lemma refresh_then_query_witness :
  exists heap',
    lrm_observer_refresh one_observer 4096 mac_system = Returns heap'
    /\ lrm_observer_get_output_count heap' 4096 = Returns 1
    /\ lrm_observer_get_output heap' 4096 0 1
       = Returns (LRM_OK, Some (fill_port_info (port_named "B" 2) 0 false)).
Proof.
  destruct (refresh_then_query one_observer 4096 mac_observer mac_system)
    as (heap' & E & _ & _ & Eo & _ & Hget); [discriminate | reflexivity..|].
  exists heap'. split; [exact E|]. split; [exact Eo|].
  apply Hget; [discriminate | lia | simpl; lia | reflexivity].
Defined.

(** X9.  Creating an observer at a fresh address with a fresh client
    and freeing it gives back the heap and the CoreMIDI clients as they
    were; in between the handle is that address, the other observers are
    untouched and the counts are those of the backend's lists; after the
    free nothing is delivered for that client any more.  When the
    allocation fails the handle is null and nothing changed.  When the
    constructor throws the handle is null and the heap is unchanged; with
    no callback or no client nothing is left behind, but a client that
    was created stays registered with a block that captures the released
    observer, and a notification for it dereferences that observer. *)
Theorem observer_new_free_round_trip (heap : gmap Z LrmObserver)
    (clients : gmap Z Z) (a callback context client : Z) (sys : backend) :
  a <> 0 -> heap !! a = None -> clients !! client = None ->
  let created := Midi.lrm_observer_create heap clients (Midi.Completed a)
                   callback context client sys in
  let failed := Midi.lrm_observer_create heap clients (Midi.ConstructorThrew a)
                  callback context client sys in
  (snd created = a
   /\ Midi.lrm_observer_destroy (fst (fst created)) (snd (fst created)) (snd created)
      = Returns (heap, clients)
   /\ (forall h', h' <> a -> fst (fst created) !! h' = heap !! h')
   /\ lrm_observer_get_input_count (fst (fst created)) (snd created)
      = Returns (Int.to_int32 (Z.of_nat (length (Ffi.get_input_ports sys))))
   /\ lrm_observer_get_output_count (fst (fst created)) (snd created)
      = Returns (Int.to_int32 (Z.of_nat (length (Ffi.get_output_ports sys))))
   /\ (forall sys' n,
         Midi.deliver_notification heap clients client sys' n = Returns (heap, [])))
  /\ Midi.lrm_observer_create heap clients Midi.AllocationFailed
       callback context client sys = (heap, clients, 0)
  /\ (snd failed = 0 /\ fst (fst failed) = heap
      /\ (callback = 0 \/ client = 0 -> snd (fst failed) = clients)
      /\ (callback <> 0 -> client <> 0 ->
          snd (fst failed) !! client = Some a
          /\ forall sys' n,
               Midi.deliver_notification (fst (fst failed)) (snd (fst failed))
                 client sys' n = Undefined))
  /\ (forall how,
        (fst (fst (Midi.lrm_observer_create heap clients how
                     callback context client sys)),
         snd (Midi.lrm_observer_create heap clients how callback context client sys))
        = Midi.lrm_observer_new_with_callbacks heap (Midi.allocation_of how)
            callback context client sys).
Proof.
  intros Ha Hfresh Hclient. cbv zeta.
  unfold Midi.lrm_observer_create, Midi.lrm_observer_destroy,
    Midi.deliver_notification, Midi.register_client,
    lrm_observer_get_input_count, lrm_observer_get_output_count.
  cbn [fst snd].
  assert (Ea : (a =? 0) = false) by now apply Z.eqb_neq.
  rewrite Ea, !lookup_insert_eq, Hclient.
  split; [|split; [reflexivity|split]].
  - split; [reflexivity|]. split; [|split; [|auto]].
    + rewrite delete_insert_eq, (delete_id heap a) by assumption.
      unfold LrmObserver_new, refreshInternal. cbn.
      destruct (callback =? 0) eqn:Ec; cbn; [reflexivity|].
      destruct (client =? 0) eqn:Ek; cbn; [reflexivity|].
      now rewrite delete_insert_eq, (delete_id clients client).
    + intros h' Hne. now apply lookup_insert_ne.
  - split; [reflexivity|]. split; [reflexivity|]. split.
    + intros [-> | ->]; [reflexivity|]. now rewrite orb_true_r.
    + intros Hc Hk. apply Z.eqb_neq in Hc, Hk. rewrite Hc, Hk. cbn.
      rewrite lookup_insert_eq, Hfresh. auto.
  - intros [a'| |a']; reflexivity.
Qed.

Lemma observer_new_free_round_trip_witness :
  Midi.lrm_observer_destroy
    (fst (fst (Midi.lrm_observer_create one_observer ∅ (Midi.Completed 8192)
                 4096 77 9 mac_system)))
    (snd (fst (Midi.lrm_observer_create one_observer ∅ (Midi.Completed 8192)
                 4096 77 9 mac_system)))
    8192
  = Returns (one_observer, ∅)
  /\ Midi.deliver_notification one_observer
       (snd (fst (Midi.lrm_observer_create one_observer ∅ (Midi.ConstructorThrew 8192)
                    4096 77 9 mac_system)))
       9 mac_system setup_changed
     = Undefined.
Proof.
  pose proof (observer_new_free_round_trip one_observer ∅ 8192 4096 77 9 mac_system
                ltac:(discriminate) eq_refl eq_refl) as H.
  cbv zeta in H.
  destruct H as ((_ & Hfree & _) & _ & (_ & _ & _ & Hleak) & _).
  split; [exact Hfree|].
  apply Hleak; discriminate.
Defined.

(** X10.  A MIDI output or input is opened on the port that the query
    with the same index describes: when [lrm_midi_out_open]
    ([lrm_midi_in_open]) returns an object, [lrm_observer_get_output]
    ([lrm_observer_get_input]) answers [LRM_OK] for that index with the
    descriptor of the opened port; and an index the query reports as not
    found is never opened.  An input stores the callback and ignores
    exactly the message classes that were not asked for. *)
Theorem midi_open_matches_get (heap : gmap Z LrmObserver) (h index info : Z)
    (opens : port_information -> bool) :
  info <> 0 ->
  (forall m, Midi.lrm_midi_out_open heap h index opens = Returns (Some m) ->
             opens (Midi.out_port m) = true
             /\ lrm_observer_get_output heap h index info
                = Returns (LRM_OK, Some (fill_port_info (Midi.out_port m) index false)))
  /\ (forall callback context sysex timing sensing m,
        Midi.lrm_midi_in_open heap h index callback context sysex timing sensing opens
        = Returns (Some m) ->
        opens (Midi.in_port m) = true
        /\ Midi.in_callback m = callback /\ Midi.in_context m = context
        /\ Midi.ignore_sysex m = negb sysex
        /\ Midi.ignore_timing m = negb timing
        /\ Midi.ignore_sensing m = negb sensing
        /\ lrm_observer_get_input heap h index info
           = Returns (LRM_OK, Some (fill_port_info (Midi.in_port m) index true)))
  /\ (lrm_observer_get_output heap h index info = Returns (LRM_ERR_NOT_FOUND, None) ->
      Midi.lrm_midi_out_open heap h index opens = Returns None)
  /\ (forall callback context sysex timing sensing,
        lrm_observer_get_input heap h index info = Returns (LRM_ERR_NOT_FOUND, None) ->
        Midi.lrm_midi_in_open heap h index callback context sysex timing sensing opens
        = Returns None).
Proof.
  intros Hi. apply Z.eqb_neq in Hi.
  unfold Midi.lrm_midi_out_open, Midi.lrm_midi_in_open,
    lrm_observer_get_output, lrm_observer_get_input, get_port.
  rewrite Hi, orb_false_r.
  destruct (h =? 0); [repeat split; intros; discriminate|].
  destruct (heap !! h) as [o|]; [|repeat split; intros; discriminate].
  split; [|split; [|split]].
  - intros m.
    destruct (_ || _); [discriminate|].
    destruct (output_ports o !! Z.to_nat index) as [p|]; [|discriminate].
    destruct (opens p) eqn:Hop; [|discriminate].
    intros E. inversion E; subst. simpl. auto.
  - intros callback context sysex timing sensing m.
    destruct (_ || _); [discriminate|].
    destruct (input_ports o !! Z.to_nat index) as [p|]; [|discriminate].
    destruct (opens p) eqn:Hop; [|discriminate].
    intros E. inversion E; subst. simpl. auto 10.
  - destruct (_ || _); [reflexivity|].
    destruct (output_ports o !! Z.to_nat index); discriminate.
  - intros callback context sysex timing sensing.
    destruct (_ || _); [reflexivity|].
    destruct (input_ports o !! Z.to_nat index); discriminate.
Qed.

Lemma midi_open_matches_get_witness :
  lrm_observer_get_input one_observer 4096 0 1
  = Returns (LRM_OK, Some (fill_port_info (port_named "A" 1) 0 true)).
Proof.
  apply (proj2 (proj2 (proj2 (proj2 (proj2 (proj2
           (proj1 (proj2 (midi_open_matches_get one_observer 4096 0 1
                            (fun _ => true) ltac:(discriminate)))
              5 6 true false true
              (Midi.mk_midi_in (port_named "A" 1) 5 6 false true false)
              eq_refl))))))).
Defined.

(** X27.  An observer created by [lrm_observer_new] has no callback and
    no CoreMIDI client, and it stays that way: whatever notifications
    reach it, in whatever system state, none of them makes a call. *)
Theorem observer_without_callback_is_silent (heap : gmap Z LrmObserver) (a : Z)
    (sys : backend) :
  a <> 0 ->
  exists o,
    fst (Midi.lrm_observer_new heap (Some a) sys) !! a = Some o
    /\ snd (Midi.lrm_observer_new heap (Some a) sys) = a
    /\ hotplug_callback o = 0 /\ midiClient o = 0
    /\ (forall events : list (backend * MIDINotification),
          snd (Midi.deliver_all o events) = []
          /\ hotplug_callback (fst (Midi.deliver_all o events)) = 0).
Proof.
  intros Ha. exists (LrmObserver_new 0 0 0 sys).
  unfold Midi.lrm_observer_new, Midi.lrm_observer_new_with_callbacks.
  cbn [fst snd]. rewrite lookup_insert_eq.
  split; [reflexivity|]. split; [reflexivity|]. split; [reflexivity|].
  split; [reflexivity|].
  intros events. unfold Midi.deliver_all.
  assert (Hgen : forall st, hotplug_callback (fst st) = 0 -> snd st = [] ->
                            snd (foldl Midi.deliver_step st events) = []
                            /\ hotplug_callback (fst (foldl Midi.deliver_step st events)) = 0).
  { induction events as [|[sys' n] events IH]; intros st Hcb Hnil; [now split|].
    cbn [foldl]. apply IH.
    - unfold Midi.deliver_step. cbn [fst snd].
      destruct n as [[| | |raw] [| |other]];
        unfold handleMIDINotification, refreshInternal; cbn;
        destruct (Ffi.observer (fst st)); cbn; exact Hcb.
    - unfold Midi.deliver_step. cbn [fst snd]. rewrite Hnil.
      destruct n as [[| | |raw] [| |other]];
        unfold handleMIDINotification, refreshInternal, notifyHotplug; cbn;
        destruct (Ffi.observer (fst st)); cbn; rewrite ?Hcb; reflexivity. }
  apply Hgen; reflexivity.
Qed.

Lemma observer_without_callback_is_silent_witness :
  exists o,
    fst (Midi.lrm_observer_new one_observer (Some 8192) mac_system) !! 8192 = Some o
    /\ snd (Midi.lrm_observer_new one_observer (Some 8192) mac_system) = 8192
    /\ hotplug_callback o = 0 /\ midiClient o = 0
    /\ (forall events : list (backend * MIDINotification),
          snd (Midi.deliver_all o events) = []
          /\ hotplug_callback (fst (Midi.deliver_all o events)) = 0).
Proof.
  apply (observer_without_callback_is_silent one_observer 8192 mac_system).
  discriminate.
Defined.

(** ** More on the diff *)

(** X11.  The two diffs are one operation with the roles of the
    snapshots exchanged, and no key is reported both as added and as
    removed. *)
Theorem diff_removed_is_added_swapped (current cache : list port_information) :
  fst (diff_removed current cache) = fst (diff_added cache current)
  /\ (forall a r, a ∈ fst (diff_added current cache) ->
                  r ∈ fst (diff_removed current cache) ->
                  port_key a <> port_key r).
Proof.
  rewrite !diff_added_spec, diff_removed_spec. simpl. split; [reflexivity|].
  intros a r Ha Hr E.
  unfold spec_added in Ha. unfold spec_removed in Hr.
  apply list_elem_of_filter in Ha as [Ha _].
  apply list_elem_of_filter in Hr as [_ Hr].
  apply Ha. rewrite E. apply list_elem_of_fmap. eauto.
Qed.

Lemma diff_removed_is_added_swapped_witness :
  port_key (port_named "C" 1) <> port_key (port_named "A" 0).
Proof.
  apply (proj2 (diff_removed_is_added_swapped
                  [port_named "B" 0; port_named "C" 1]
                  [port_named "A" 0; port_named "B" 1])
           (port_named "C" 1) (port_named "A" 0)).
  - vm_compute. left.
  - vm_compute. left.
Defined.

(** X12.  Empty snapshots: against an empty cache every current port is
    added and none is removed; against an empty current snapshot none is
    added and every cached port is removed. *)
Theorem diff_with_empty_snapshot (ports : list port_information) :
  diff_added ports [] = (ports, ports)
  /\ diff_removed ports [] = ([], ports)
  /\ diff_added [] ports = ([], [])
  /\ diff_removed [] ports = (ports, []).
Proof.
  rewrite !diff_added_spec, !diff_removed_spec.
  rewrite spec_removed_all.
  assert (E : spec_added [] ports = ports).
  { unfold spec_added. induction ports as [|p ports IH]; [reflexivity|].
    rewrite filter_cons_True by (simpl; apply not_elem_of_nil). now rewrite IH. }
  rewrite E. repeat split.
Qed.

(** ** Sequences of Android signals *)

Section SignalFacts.

Lemma spec_added_self (l : list port_information) : spec_added l l = [].
Proof. apply spec_added_nil. intros p Hp. apply list_elem_of_fmap. eauto. Qed.

Lemma spec_removed_self (l : list port_information) : spec_removed l l = [].
Proof. apply spec_removed_nil. intros p Hp. apply list_elem_of_fmap. eauto. Qed.

End SignalFacts.

(** X13.  A signal repeated while the devices have not changed is
    silent: handling device-added (device-removed) a second time in the
    same system state makes no callback and leaves the observer as the
    first handling left it. *)
Theorem repeated_signal_is_silent (o : observer) (w : jni) :
  on_device_added (fst (on_device_added o w)) w = (fst (on_device_added o w), [])
  /\ on_device_removed (fst (on_device_removed o w)) w
     = (fst (on_device_removed o w), []).
Proof.
  split.
  - rewrite (on_device_added_eq (fst _)), (on_device_added_eq o). simpl.
    destruct (input_added (configuration o)), (output_added (configuration o));
      rewrite ?spec_added_self; reflexivity.
  - rewrite (on_device_removed_eq (fst _)), (on_device_removed_eq o). simpl.
    destruct (input_removed (configuration o)), (output_removed (configuration o));
      rewrite ?spec_removed_self; reflexivity.
Qed.

(** X14.  Each handler overwrites the cache it diffs against.  With
    both added-callbacks configured, a device-removed signal handled
    after a device-added signal in the same system state reports nothing;
    with both removed-callbacks configured, a device-added signal handled
    after a device-removed signal reports nothing: of a simultaneous
    unplug and plug only the half of the first signal is reported. *)
Theorem second_signal_finds_cache_updated (o : observer) (w : jni) :
  (input_added (configuration o) = true ->
   output_added (configuration o) = true ->
   snd (on_device_removed (fst (on_device_added o w)) w) = [])
  /\ (input_removed (configuration o) = true ->
      output_removed (configuration o) = true ->
      snd (on_device_added (fst (on_device_removed o w)) w) = []).
Proof.
  split.
  - intros Hia Hoa.
    rewrite (on_device_removed_eq (fst _)), (on_device_added_eq o). simpl.
    rewrite Hia, Hoa, !spec_removed_self.
    destruct (input_removed _), (output_removed _); reflexivity.
  - intros Hir Hor.
    rewrite (on_device_added_eq (fst _)), (on_device_removed_eq o). simpl.
    rewrite Hir, Hor, !spec_added_self.
    destruct (input_added _), (output_added _); reflexivity.
Qed.

Lemma second_signal_finds_cache_updated_witness :
  cached_inputs android_observer = [keyboard_port]
  /\ get_input_ports world_swapped = []
  /\ snd (on_device_added android_observer world_swapped) = [OutputAdded synth_port]
  /\ snd (on_device_removed (fst (on_device_added android_observer world_swapped))
                            world_swapped) = [].
Proof.
  split; [reflexivity|]. split; [reflexivity|]. split; [reflexivity|].
  apply (proj1 (second_signal_finds_cache_updated android_observer world_swapped));
    reflexivity.
Defined.

(** ** The slot and the life of an Android observer *)

Lemma dispatch_spec (slot : option hotplug_callback_t) (p q arg : Z)
    (f : hotplug_callback_t) :
  match slot with
  | Some f0 => if negb (q =? 0) && (q =? p) then Some (f0, q) else None
  | None => None
  end = Some (f, arg)
  <-> slot = Some f /\ q = p /\ p <> 0 /\ arg = q.
Proof.
  destruct slot as [f0|]; [|split; [discriminate | intros [? _]; discriminate]].
  destruct (q =? 0) eqn:E0; simpl.
  - apply Z.eqb_eq in E0. split; [discriminate|]. intros (_ & -> & Hp & _). lia.
  - apply Z.eqb_neq in E0. destruct (q =? p) eqn:Ep.
    + apply Z.eqb_eq in Ep. subst q. split.
      * intros E. inversion E; subst. repeat split; assumption || reflexivity.
      * intros (E & _ & _ & ->). now inversion E.
    + apply Z.eqb_neq in Ep. split; [discriminate|].
      intros (_ & ? & _). contradiction.
Qed.

(** X15.  After [set_hotplug_observer] a device signal calls a handler
    exactly when it carries the registered pointer, that pointer is not
    null and the handler of its kind is not null; the handler receives
    that pointer.  Whatever was registered before plays no role. *)
Theorem slot_last_writer_wins (p q arg : Z) (a r : option hotplug_callback_t)
    (g : gate) (f : hotplug_callback_t) :
  (onDeviceAddedNative (set_hotplug_observer p a r g) q = Some (f, arg)
   <-> a = Some f /\ q = p /\ p <> 0 /\ arg = q)
  /\ (onDeviceRemovedNative (set_hotplug_observer p a r g) q = Some (f, arg)
      <-> r = Some f /\ q = p /\ p <> 0 /\ arg = q).
Proof.
  unfold onDeviceAddedNative, onDeviceRemovedNative, set_hotplug_observer; simpl.
  split; apply dispatch_spec.
Qed.

Lemma slot_last_writer_wins_witness :
  onDeviceAddedNative second_registration 8192 = Some (on_device_added_static, 8192).
Proof.
  apply (proj1 (slot_last_writer_wins 8192 8192 8192
                  (Some on_device_added_static) (Some on_device_removed_static)
                  (set_hotplug_observer 4096 (Some on_device_added_static)
                     (Some on_device_removed_static) gate_initial)
                  on_device_added_static)).
  repeat split. discriminate.
Defined.

(** X16.  An observer constructed with callbacks while the JNI
    environment, the context and the MIDI manager are available is
    registered in the slot, whether or not the Java device callback could
    be created.  Its destructor clears the slot only if that device
    callback exists and the JNI environment is available again;
    otherwise the slot still holds the pointer and a signal carrying it
    is still dispatched. *)
Theorem android_observer_slot_lifetime (conf : observer_configuration) (self : Z)
    (w w' : jni) (g : gate) :
  has_callbacks conf = true -> self <> 0 ->
  thread_env w = true -> app_context w = true -> midi_service w = true ->
  let o := fst (fst (observer_new conf self w g)) in
  let g1 := snd (fst (observer_new conf self w g)) in
  onDeviceAddedNative g1 self = Some (on_device_added_static, self)
  /\ onDeviceRemovedNative g1 self = Some (on_device_removed_static, self)
  /\ (status_callback w = true -> thread_env w' = true ->
      forall q, onDeviceAddedNative (observer_dtor o w' g1) q = None
                /\ onDeviceRemovedNative (observer_dtor o w' g1) q = None)
  /\ (status_callback w = false \/ thread_env w' = false ->
      onDeviceAddedNative (observer_dtor o w' g1) self
      = Some (on_device_added_static, self)
      /\ onDeviceRemovedNative (observer_dtor o w' g1) self
         = Some (on_device_removed_static, self)).
Proof.
  intros Hcb Hself He Hc Hm. unfold observer_new. rewrite Hcb, He, Hc, Hm.
  cbn -[Z.eqb]. unfold observer_dtor. cbn -[Z.eqb].
  assert (Ea : forall fa fr,
             onDeviceAddedNative (mk_gate self (Some fa) fr) self = Some (fa, self)).
  { intros fa fr. unfold onDeviceAddedNative. cbn -[Z.eqb].
    apply Z.eqb_neq in Hself. now rewrite Hself, Z.eqb_refl. }
  assert (Er : forall fa fr,
             onDeviceRemovedNative (mk_gate self fa (Some fr)) self = Some (fr, self)).
  { intros fa fr. unfold onDeviceRemovedNative. cbn -[Z.eqb].
    apply Z.eqb_neq in Hself. now rewrite Hself, Z.eqb_refl. }
  assert (Eself : negb (self =? 0) && (self =? self) = true).
  { apply Z.eqb_neq in Hself. now rewrite Hself, Z.eqb_refl. }
  rewrite !Eself.
  split; [reflexivity|]. split; [reflexivity|]. split.
  - intros -> ->. cbn. auto.
  - intros [-> | ->]; [destruct (thread_env w')|];
      split; first [apply Ea | apply Er].
Qed.

Lemma android_observer_slot_lifetime_witness :
  onDeviceAddedNative
    (observer_dtor
       (fst (fst (observer_new (mk_conf true true true true false) 4096
                               (mk_jni true true true false [keyboard]) gate_initial)))
       world_before
       (snd (fst (observer_new (mk_conf true true true true false) 4096
                               (mk_jni true true true false [keyboard]) gate_initial))))
    4096
  = Some (on_device_added_static, 4096).
Proof.
  apply (proj2 (proj2 (proj2
           (android_observer_slot_lifetime (mk_conf true true true true false) 4096
              (mk_jni true true true false [keyboard]) world_before gate_initial
              eq_refl ltac:(discriminate) eq_refl eq_refl eq_refl)))).
  left. reflexivity.
Defined.

(** X17.  A freshly constructed observer with callbacks is in step with
    the system: its caches are the two enumerations, so a device signal
    handled before anything changed reports no port.  If
    [notify_in_constructor] is set, each port present is announced once
    by the constructor, for the directions whose added-callback is set,
    inputs first. *)
Theorem constructed_observer_is_in_step (conf : observer_configuration) (self : Z)
    (w : jni) (g : gate) :
  has_callbacks conf = true ->
  let o := fst (fst (observer_new conf self w g)) in
  cached_inputs o = get_input_ports w
  /\ cached_outputs o = get_output_ports w
  /\ configuration o = conf
  /\ snd (on_device_added o w) = []
  /\ snd (on_device_removed o w) = []
  /\ snd (observer_new conf self w g)
     = if notify_in_constructor conf
       then (if input_added conf then map InputAdded (get_input_ports w) else [])
            ++ (if output_added conf then map OutputAdded (get_output_ports w) else [])
       else [].
Proof.
  intros Hcb. unfold observer_new. rewrite Hcb. simpl.
  split; [reflexivity|]. split; [reflexivity|]. split; [reflexivity|].
  rewrite on_device_added_eq, on_device_removed_eq. simpl.
  rewrite !spec_added_self, !spec_removed_self.
  split; [|split; [|reflexivity]].
  - destruct (input_added conf), (output_added conf); reflexivity.
  - destruct (input_removed conf), (output_removed conf); reflexivity.
Qed.

Lemma constructed_observer_is_in_step_witness :
  snd (on_device_added
         (fst (fst (observer_new (mk_conf true true true true true) 4096
                                 world_after gate_initial)))
         world_after) = [].
Proof.
  apply (constructed_observer_is_in_step (mk_conf true true true true true) 4096
           world_after gate_initial eq_refl).
Defined.

(** ** The Android enumeration *)

Section EnumerationFacts.

Lemma string_length_append (a b : string) :
  String.length (a +:+ b) = (String.length a + String.length b)%nat.
Proof.
  induction a as [|c a IH]; [reflexivity|].
  change (S (String.length (a +:+ b)) = S (String.length a + String.length b)).
  now rewrite IH.
Qed.

Lemma append_inv_tail (a b r : string) : a +:+ r = b +:+ r -> a = b.
Proof.
  revert b. induction a as [|c a IH]; intros [|d b] E.
  - reflexivity.
  - apply (f_equal String.length) in E.
    rewrite !string_length_append in E. simpl in E. lia.
  - apply (f_equal String.length) in E.
    rewrite !string_length_append in E. simpl in E. lia.
  - change (String c (a +:+ r) = String d (b +:+ r)) in E.
    inversion E; subst. f_equal. now apply IH.
Qed.

Lemma length_flat_map_sum {A B} (f : A -> list B) (l : list A) :
  length (flat_map f l) = sum_list (map (fun x => length (f x)) l).
Proof.
  induction l as [|x l IH]; [reflexivity|].
  simpl. now rewrite length_app, IH.
Qed.

Lemma refresh_entry (w : jni) (is_output : bool) (e : midi_port_entry) :
  e ∈ refresh_midi_devices w is_output ->
  entry_device e ∈ devices w
  /\ 0 <= port_index e
     < (if is_output then input_port_count (entry_device e)
        else output_port_count (entry_device e)).
Proof.
  unfold refresh_midi_devices.
  destruct (midi_service w); [|intros H; apply elem_of_nil in H; contradiction].
  rewrite list_elem_of_In, in_flat_map.
  intros (d & Hd & He).
  apply list_elem_of_In, list_elem_of_fmap in He as (k & -> & Hk).
  apply elem_of_seqZ in Hk. simpl.
  split; [now apply list_elem_of_In | lia].
Qed.

Lemma enumerate_elem (w : jni) (is_output : bool) (p : port_information) :
  p ∈ enumerate w is_output ->
  exists i e,
    refresh_midi_devices w is_output !! i = Some e
    /\ p = make_port (refresh_midi_devices w is_output) i.
Proof.
  unfold enumerate.
  destruct (thread_env w); simpl; [|intros H; apply elem_of_nil in H; contradiction].
  destruct (app_context w); simpl; [|intros H; apply elem_of_nil in H; contradiction].
  intros Hp. apply list_elem_of_fmap in Hp as (i & -> & Hi).
  apply elem_of_seq in Hi.
  destruct (lookup_lt_is_Some_2 (refresh_midi_devices w is_output) i) as [e He];
    [lia|].
  eauto.
Qed.

Lemma map_android_type_virtual (t : Z) :
  is_virtual_type (map_android_type t) = true <-> t = 2.
Proof.
  unfold map_android_type.
  destruct (t =? 1) eqn:E1; [apply Z.eqb_eq in E1; subst; split; [discriminate|lia]|].
  destruct (t =? 2) eqn:E2; [apply Z.eqb_eq in E2; subst; split; auto|].
  apply Z.eqb_neq in E2.
  destruct (t =? 3) eqn:E3; (split; [discriminate | contradiction]).
Qed.

End EnumerationFacts.

(** X18.  The native handles of an enumeration are the positions 0, 1,
    2, ... and its length is the number of ports the listed devices
    declare for the direction (a device's output ports are the
    application's inputs); it is empty when the JNI environment, the
    context or the MIDI manager is missing. *)
Theorem enumerate_handles_and_length (w : jni) (is_output : bool) :
  map port (enumerate w is_output)
  = map Z.of_nat (seq 0 (length (enumerate w is_output)))
  /\ length (enumerate w is_output)
     = if thread_env w && app_context w && midi_service w
       then sum_list
              (map (fun d => Z.to_nat (if is_output then input_port_count d
                                       else output_port_count d))
                   (devices w))
       else 0%nat.
Proof.
  unfold enumerate.
  destruct (thread_env w); simpl; [|split; reflexivity].
  destruct (app_context w); simpl; [|split; reflexivity].
  rewrite length_map, length_seq. split.
  - rewrite map_map. reflexivity.
  - unfold refresh_midi_devices. destruct (midi_service w); [|reflexivity].
    rewrite length_flat_map_sum. f_equal. apply map_ext.
    intros d. now rewrite length_map, length_seqZ.
Qed.

(** X19.  Every enumerated port comes from a listed device and one of
    its port numbers: its name is the device name followed by
    [" Port k"] with [k] from 1 to the port count, manufacturer, product
    and serial are the device's (empty when the property is missing),
    the display name is the port name, the device name is never empty,
    the transport type is unknown, software, hardware|usb or
    hardware|bluetooth, and the port is virtual exactly for an Android
    device of type 2. *)
Theorem enumerated_port_origin (w : jni) (is_output : bool) (p : port_information) :
  p ∈ enumerate w is_output ->
  exists d k,
    d ∈ devices w
    /\ 1 <= k <= (if is_output then input_port_count d else output_port_count d)
    /\ port_name p = get_bundle_string (prop_name d) +:+ " Port " +:+ pretty k
    /\ manufacturer p = get_bundle_string (prop_manufacturer d)
    /\ product p = get_bundle_string (prop_product d)
    /\ serial p = get_bundle_string (prop_serial_number d)
    /\ display_name p = port_name p
    /\ device_name p <> ""
    /\ client p = default_client
    /\ type p = map_android_type (device_type d)
    /\ (type p = LRM_TRANSPORT_UNKNOWN \/ type p = LRM_TRANSPORT_SOFTWARE
        \/ type p = Z.lor LRM_TRANSPORT_HARDWARE LRM_TRANSPORT_USB
        \/ type p = Z.lor LRM_TRANSPORT_HARDWARE LRM_TRANSPORT_BLUETOOTH)
    /\ (forall index dir,
          info_is_virtual (fill_port_info p index dir) = true <-> device_type d = 2).
Proof.
  intros Hp. apply enumerate_elem in Hp as (i & e & He & ->).
  assert (Hin : e ∈ refresh_midi_devices w is_output)
    by (apply list_elem_of_lookup; eauto).
  apply refresh_entry in Hin as [Hd Hk].
  exists (entry_device e), (port_index e + 1).
  unfold make_port, context_port_name, context_port_manufacturer,
    context_port_product, context_port_serial, context_port_type.
  rewrite He. simpl.
  split; [exact Hd|]. split; [lia|].
  repeat (split; [reflexivity|]).
  split.
  { destruct (String.eqb _ "") eqn:Eprod.
    - destruct (get_bundle_string (prop_name (entry_device e))); discriminate.
    - apply String.eqb_neq in Eprod. exact Eprod. }
  split; [reflexivity|]. split; [reflexivity|]. split.
  { unfold map_android_type.
    destruct (_ =? 1); [auto|]. destruct (_ =? 2); [auto|].
    destruct (_ =? 3); auto. }
  intros index dir. apply map_android_type_virtual.
Qed.

Lemma enumerated_port_origin_witness :
  exists d k,
    d ∈ devices world_after
    /\ 1 <= k <= input_port_count d
    /\ port_name synth_port = get_bundle_string (prop_name d) +:+ " Port " +:+ pretty k
    /\ manufacturer synth_port = get_bundle_string (prop_manufacturer d)
    /\ product synth_port = get_bundle_string (prop_product d)
    /\ serial synth_port = get_bundle_string (prop_serial_number d)
    /\ display_name synth_port = port_name synth_port
    /\ device_name synth_port <> ""
    /\ client synth_port = default_client
    /\ type synth_port = map_android_type (device_type d)
    /\ (type synth_port = LRM_TRANSPORT_UNKNOWN
        \/ type synth_port = LRM_TRANSPORT_SOFTWARE
        \/ type synth_port = Z.lor LRM_TRANSPORT_HARDWARE LRM_TRANSPORT_USB
        \/ type synth_port = Z.lor LRM_TRANSPORT_HARDWARE LRM_TRANSPORT_BLUETOOTH)
    /\ (forall index dir,
          info_is_virtual (fill_port_info synth_port index dir) = true
          <-> device_type d = 2).
Proof.
  apply (enumerated_port_origin world_after true synth_port).
  vm_compute. left.
Defined.

(** X20.  Two ports of one device have the same key exactly when they
    are the same port number: the ports of a device are always told
    apart, and a second listing of the same device with the same port
    number is not. *)
Theorem same_device_ports_keys (midi_ports : list midi_port_entry) (i j : nat)
    (e1 e2 : midi_port_entry) :
  midi_ports !! i = Some e1 -> midi_ports !! j = Some e2 ->
  entry_device e1 = entry_device e2 ->
  (port_key (make_port midi_ports i) = port_key (make_port midi_ports j)
   <-> port_index e1 = port_index e2).
Proof.
  intros H1 H2 Hdev. rewrite !port_key_unfold.
  unfold make_port, context_port_name, context_port_manufacturer,
    context_port_product, context_port_serial.
  rewrite H1, H2. simpl. rewrite Hdev. split.
  - intros E. apply append_inv_tail in E.
    apply String.app_inj in E. apply String.app_inj in E.
    apply (inj pretty) in E. lia.
  - intros ->. reflexivity.
Qed.

Lemma same_device_ports_keys_witness :
  port_key (make_port (refresh_midi_devices world_duo false) 0)
  <> port_key (make_port (refresh_midi_devices world_duo false) 1).
Proof.
  intros E.
  apply (proj1 (same_device_ports_keys (refresh_midi_devices world_duo false) 0 1
                  (mk_entry two_port_device 0) (mk_entry two_port_device 1)
                  eq_refl eq_refl eq_refl)) in E.
  discriminate.
Defined.

(** ** The JNI shim *)

Section ShimFacts.

Import JniShim.

Lemma init_jni_functions_initialized (dl : linker) (st : shim_state) :
  initialized (init_jni_functions dl st) = true.
Proof.
  unfold init_jni_functions.
  destruct (initialized st) eqn:E; [exact E|].
  destruct (_ && _); reflexivity.
Qed.

Lemma init_jni_functions_once (dl dl' : linker) (st : shim_state) :
  init_jni_functions dl' (init_jni_functions dl st) = init_jni_functions dl st.
Proof.
  unfold init_jni_functions at 1. now rewrite init_jni_functions_initialized.
Qed.

Lemma to_java_name_no_slash (name : string) :
  contains_char "/" (to_java_name name) = false.
Proof.
  induction name as [|c name IH]; [reflexivity|]. simpl.
  destruct (Ascii.eqb c "/") eqn:E; [exact IH|]. now rewrite E.
Qed.

Lemma to_java_name_id (name : string) :
  contains_char "/" name = false -> to_java_name name = name.
Proof.
  induction name as [|c name IH]; [reflexivity|]. simpl.
  destruct (Ascii.eqb c "/"); [discriminate|].
  intros H. now rewrite IH.
Qed.

End ShimFacts.

(** X21.  [libremidi_find_class] hands the class loader a name of the
    same length in which no ['/'] is left (a name without one is handed
    over unchanged, and converting twice changes nothing); with both
    cached globals set the JNI default lookup is not used and a pending
    exception gives null. *)
Theorem find_class_uses_dotted_name (name : string) :
  String.length (JniShim.to_java_name name) = String.length name
  /\ contains_char "/" (JniShim.to_java_name name) = false
  /\ (contains_char "/" name = false -> JniShim.to_java_name name = name)
  /\ JniShim.to_java_name (JniShim.to_java_name name) = JniShim.to_java_name name
  /\ (forall cache loadClass FindClass,
        JniShim.g_classLoader cache <> 0 -> JniShim.g_findClassMethod cache <> 0 ->
        JniShim.libremidi_find_class cache loadClass FindClass name
        = if snd (loadClass (JniShim.to_java_name name)) then 0
          else fst (loadClass (JniShim.to_java_name name))).
Proof.
  split; [|split; [apply to_java_name_no_slash|split; [apply to_java_name_id|split]]].
  - induction name as [|c name IH]; [reflexivity|]. simpl. now rewrite IH.
  - apply to_java_name_id, to_java_name_no_slash.
  - intros cache loadClass FindClass Hl Hm.
    unfold JniShim.libremidi_find_class.
    apply Z.eqb_neq in Hl, Hm. rewrite Hl, Hm. simpl.
    now destruct (loadClass _) as [clazz []].
Qed.

Lemma find_class_uses_dotted_name_witness :
  JniShim.libremidi_find_class (JniShim.mk_class_cache 1 2)
    (fun n => if String.eqb n "dev.celtera.libremidi.MidiDeviceCallback"
              then (7, false) else (0, true))
    (fun _ => 0) "dev/celtera/libremidi/MidiDeviceCallback" = 7.
Proof.
  rewrite (proj2 (proj2 (proj2 (proj2
             (find_class_uses_dotted_name "dev/celtera/libremidi/MidiDeviceCallback"))))
             (JniShim.mk_class_cache 1 2) _ (fun _ => 0));
    [reflexivity | discriminate | discriminate].
Defined.

(** X22.  The symbol [JNI_GetCreatedJavaVMs] is looked up once per
    process: a later call never consults the linker again.  If the first
    call finds the symbol in neither [libnativehelper.so] nor
    [libart.so], every later call answers [JNI_ERR] with zero VMs and
    leaves the caller's buffer alone, [get_thread_env] is null for good,
    and every enumeration made in such a state is empty. *)
Theorem symbol_lookup_happens_once (dl : JniShim.linker) (st : JniShim.shim_state) :
  (forall dl', JniShim.init_jni_functions dl' (JniShim.init_jni_functions dl st)
               = JniShim.init_jni_functions dl st)
  /\ (JniShim.initialized st = false ->
      JniShim.s_JNI_GetCreatedJavaVMs st = 0 ->
      (JniShim.dlopen dl "libnativehelper.so" = 0
       \/ JniShim.dlsym dl (JniShim.dlopen dl "libnativehelper.so")
                        "JNI_GetCreatedJavaVMs" = 0) ->
      (JniShim.dlopen dl "libart.so" = 0
       \/ JniShim.dlsym dl (JniShim.dlopen dl "libart.so")
                        "JNI_GetCreatedJavaVMs" = 0) ->
      let st1 := JniShim.init_jni_functions dl st in
      forall dl' real vm_at buf,
        JniShim.JNI_GetCreatedJavaVMs dl' st1 real buf
        = (st1, JniShim.mk_created JniShim.JNI_ERR buf 0)
        /\ JniShim.get_thread_env dl' st1 real vm_at buf = (st1, 0)
        /\ (forall w is_output,
              thread_env w
              = negb (snd (JniShim.get_thread_env dl' st1 real vm_at buf) =? 0) ->
              enumerate w is_output = [])).
Proof.
  split; [intros dl'; apply init_jni_functions_once|].
  intros Hinit Hs H1 H2 st1 dl' real vm_at buf.
  assert (Es : JniShim.s_JNI_GetCreatedJavaVMs st1 = 0).
  { subst st1. unfold JniShim.init_jni_functions. rewrite Hinit, Hs.
    destruct H1 as [-> | E1], H2 as [-> | E2]; simpl.
    - reflexivity.
    - destruct (JniShim.dlopen dl "libart.so" =? 0); [reflexivity | exact E2].
    - rewrite E1. destruct (JniShim.dlopen dl "libnativehelper.so" =? 0);
        simpl; reflexivity.
    - rewrite E1.
      assert (Ec : negb (JniShim.dlopen dl "libnativehelper.so" =? 0)
                   && negb ((if JniShim.dlopen dl "libnativehelper.so" =? 0
                             then 0 else 0) =? 0) = false).
      { destruct (_ =? 0); reflexivity. }
      rewrite Ec. simpl.
      destruct (JniShim.dlopen dl "libart.so" =? 0);
        [destruct (JniShim.dlopen dl "libnativehelper.so" =? 0); reflexivity
        | exact E2]. }
  assert (Ecall : JniShim.JNI_GetCreatedJavaVMs dl' st1 real buf
                  = (st1, JniShim.mk_created JniShim.JNI_ERR buf 0)).
  { unfold JniShim.JNI_GetCreatedJavaVMs. subst st1.
    rewrite init_jni_functions_once. fold (JniShim.init_jni_functions dl st).
    now rewrite Es. }
  assert (Eenv : JniShim.get_thread_env dl' st1 real vm_at buf = (st1, 0)).
  { unfold JniShim.get_thread_env. rewrite Ecall. reflexivity. }
  split; [exact Ecall|]. split; [exact Eenv|].
  intros w is_output Hw. rewrite Eenv in Hw. simpl in Hw.
  apply enumerate_failed. now left.
Qed.

Lemma symbol_lookup_happens_once_witness :
  JniShim.get_thread_env linker_with_symbol
    (JniShim.init_jni_functions linker_without_symbol JniShim.shim_initial)
    (fun _ => JniShim.mk_created 0 1 1)
    (fun _ => JniShim.mk_java_vm (0, 33) (0, 33)) 0
  = (JniShim.init_jni_functions linker_without_symbol JniShim.shim_initial, 0).
Proof.
  apply (proj2 (symbol_lookup_happens_once linker_without_symbol JniShim.shim_initial)
           eq_refl eq_refl (or_introl eq_refl) (or_introl eq_refl)).
Defined.

(** ** Device information on Windows *)

Section WinFacts.

Import WinUwp.

Lemma find_guid_after (body rest : list Z) (pos : nat) :
  L_brace ∉ body ->
  find_guid (body ++ L_hash :: L_brace :: rest) pos = Some (pos + length body)%nat.
Proof.
  revert pos. induction body as [|a body IH]; intros pos Hb.
  - simpl. f_equal. lia.
  - apply not_elem_of_cons in Hb as [Ha Hb].
    change ((a :: body) ++ L_hash :: L_brace :: rest)
      with (a :: (body ++ L_hash :: L_brace :: rest)).
    cbn [find_guid].
    destruct (body ++ L_hash :: L_brace :: rest) as [|b tail] eqn:E.
    { destruct body; discriminate. }
    assert (Hb' : b <> L_brace).
    { destruct body as [|b' body']; simpl in E; inversion E; subst.
      - discriminate.
      - intros ->. apply Hb. left. }
    apply Z.eqb_neq in Hb'. rewrite Hb', andb_false_r.
    rewrite IH by assumption. f_equal. simpl. lia.
Qed.

Lemma usb_parent_loop_cases (depth : nat) (tree : gmap Z devnode) (d : Z) :
  usb_parent_loop depth tree d = no_info
  \/ transport_type (usb_parent_loop depth tree d) = hardware_usb
  \/ transport_type (usb_parent_loop depth tree d) = hardware_bluetooth.
Proof.
  revert d. induction depth as [|depth IH]; intros d; simpl; [auto|].
  destruct (d =? 0); [auto|].
  destruct (is_usb_device _); [auto|].
  destruct (is_bluetooth_device _); [auto|].
  destruct (CM_Get_Parent tree d); auto.
Qed.

Lemma usb_parent_loop_found (depth : nat) (tree : gmap Z devnode) (d : Z) :
  transport_type (usb_parent_loop depth tree d) <> 0
  <-> exists n a, (n < depth)%nat /\ nth_parent tree d n = Some a
                  /\ is_classified tree a = true.
Proof.
  revert d. induction depth as [|depth IH]; intros d.
  - simpl. split; [contradiction|]. intros (n & a & Hn & _). lia.
  - cbn [usb_parent_loop]. destruct (d =? 0) eqn:Ed.
    + split; [contradiction|]. intros (n & a & _ & Hp & _).
      destruct n; simpl in Hp; rewrite Ed in Hp; discriminate.
    + destruct (is_usb_device (cfgmgr_get_instance_id tree d)) eqn:Eu.
      { split; [|discriminate]. intros _. exists 0%nat, d. simpl. rewrite Ed.
        split; [lia|]. split; [reflexivity|]. unfold is_classified. now rewrite Eu. }
      destruct (is_bluetooth_device (cfgmgr_get_instance_id tree d)) eqn:Eb.
      { split; [|discriminate]. intros _. exists 0%nat, d. simpl. rewrite Ed.
        split; [lia|]. split; [reflexivity|]. unfold is_classified.
        now rewrite Eb, orb_true_r. }
      destruct (CM_Get_Parent tree d) as [p|] eqn:Ep.
      * rewrite IH. split.
        -- intros (n & a & Hn & Hp & Hc). exists (S n), a.
           split; [lia|]. simpl. rewrite Ed, Ep. auto.
        -- intros (n & a & Hn & Hp & Hc). destruct n as [|n]; simpl in Hp;
             rewrite Ed in Hp.
           ++ inversion Hp; subst. unfold is_classified in Hc.
              rewrite Eu, Eb in Hc. discriminate.
           ++ rewrite Ep in Hp. exists n, a. split; [lia|]. auto.
      * split; [contradiction|]. intros (n & a & Hn & Hp & Hc).
        destruct n as [|n]; simpl in Hp; rewrite Ed in Hp.
        -- inversion Hp; subst. unfold is_classified in Hc.
           rewrite Eu, Eb in Hc. discriminate.
        -- rewrite Ep in Hp. discriminate.
Qed.

End WinFacts.

(** X23.  The PnP instance id computed from a WinRT port id never
    contains ['#'] and is never longer than the port id; for an id of the
    form [\\?\] body ["#{"] rest whose body has no ['{'], it is the body
    with every ['#'] turned into a backslash. *)
Theorem pnp_instance_id_shape (wide : list Z) :
  (WinUwp.L_hash ∉ WinUwp.winrt_id_to_pnp_instance_id wide)
  /\ (length (WinUwp.winrt_id_to_pnp_instance_id wide) <= length wide)%nat
  /\ (forall body rest,
        WinUwp.L_brace ∉ body ->
        wide = [WinUwp.L_backslash; WinUwp.L_backslash; WinUwp.L_question;
                WinUwp.L_backslash] ++ body ++ WinUwp.L_hash :: WinUwp.L_brace :: rest ->
        WinUwp.winrt_id_to_pnp_instance_id wide
        = map (fun c => if c =? WinUwp.L_hash then WinUwp.L_backslash else c) body).
Proof.
  split; [|split].
  - unfold WinUwp.winrt_id_to_pnp_instance_id.
    destruct wide as [|u wide]; [apply not_elem_of_nil|].
    intros Hin. apply list_elem_of_fmap in Hin as (c & Hc & _).
    destruct (c =? WinUwp.L_hash) eqn:E.
    + discriminate.
    + apply Z.eqb_neq in E. congruence.
  - unfold WinUwp.winrt_id_to_pnp_instance_id.
    destruct wide as [|u wide]; [simpl; lia|].
    rewrite length_map, length_take, length_drop. lia.
  - intros body rest Hb ->.
    unfold WinUwp.winrt_id_to_pnp_instance_id. cbn [app].
    assert (Hlen : (4 <? length (WinUwp.L_backslash :: WinUwp.L_backslash
                          :: WinUwp.L_question :: WinUwp.L_backslash
                          :: body ++ WinUwp.L_hash :: WinUwp.L_brace :: rest))%nat = true).
    { apply Nat.ltb_lt. simpl. rewrite length_app. simpl. lia. }
    rewrite Hlen. cbn [take andb]. rewrite bool_decide_eq_true_2 by reflexivity.
    cbn [drop]. rewrite !drop_0, find_guid_after by assumption.
    replace (4 + length body - 4)%nat with (length body) by lia.
    now rewrite take_app_length.
Qed.

Lemma pnp_instance_id_shape_witness :
  WinUwp.winrt_id_to_pnp_instance_id
    (WinUwp.wide_of "\\?\SWD#MMDEVAPI#MIDII_60E5#{504be32c-ccf6}")
  = WinUwp.wide_of "SWD\MMDEVAPI\MIDII_60E5".
Proof.
  apply (proj2 (proj2 (pnp_instance_id_shape
           (WinUwp.wide_of "\\?\SWD#MMDEVAPI#MIDII_60E5#{504be32c-ccf6}")))
           (WinUwp.wide_of "SWD#MMDEVAPI#MIDII_60E5")
           (WinUwp.wide_of "504be32c-ccf6}")).
  - vm_compute. intros H. repeat (apply elem_of_cons in H as [H|H]; [discriminate|]).
    now apply elem_of_nil in H.
  - reflexivity.
Defined.

(** X24.  The walk up the device tree answers with no information, with
    hardware|usb or with hardware|bluetooth; it answers with a transport
    type exactly when the node itself or one of its first nine ancestors
    is a USB device node or a Bluetooth node: an ancestor ten or more
    levels up is never reached. *)
Theorem usb_parent_info_reach (tree : gmap Z WinUwp.devnode) (devInst : Z) :
  let r := WinUwp.cfgmgr_get_usb_parent_info tree devInst in
  (r = WinUwp.no_info
   \/ WinUwp.transport_type r = WinUwp.hardware_usb
   \/ WinUwp.transport_type r = WinUwp.hardware_bluetooth)
  /\ (WinUwp.transport_type r <> 0
      <-> exists n a, (n < 10)%nat /\ WinUwp.nth_parent tree devInst n = Some a
                      /\ WinUwp.is_classified tree a = true).
Proof.
  split; [apply usb_parent_loop_cases | apply usb_parent_loop_found].
Qed.

Lemma usb_parent_info_reach_witness :
  WinUwp.cfgmgr_get_usb_parent_info usb_tree 1
  = WinUwp.mk_device_info "Acme Keys" WinUwp.hardware_usb
  /\ WinUwp.transport_type (WinUwp.cfgmgr_get_usb_parent_info usb_tree 1) <> 0.
Proof.
  split; [reflexivity|].
  apply (proj2 (proj2 (usb_parent_info_reach usb_tree 1))).
  exists 2%nat, 3. split; [lia|]. split; reflexivity.
Defined.

(** X25.  The device information for a port id has transport type
    unknown, software, hardware|usb or hardware|bluetooth; it is unknown
    only with an empty device name, and software only for the Microsoft
    GS Wavetable Synth. *)
Theorem device_info_classification (tree : gmap Z WinUwp.devnode)
    (locate : list Z -> option Z) (portId : list Z) :
  let r := WinUwp.get_device_info_from_port_id tree locate portId in
  (WinUwp.transport_type r = LRM_TRANSPORT_UNKNOWN
   \/ WinUwp.transport_type r = LRM_TRANSPORT_SOFTWARE
   \/ WinUwp.transport_type r = WinUwp.hardware_usb
   \/ WinUwp.transport_type r = WinUwp.hardware_bluetooth)
  /\ (WinUwp.transport_type r = LRM_TRANSPORT_UNKNOWN -> WinUwp.device_name r = "")
  /\ (WinUwp.transport_type r = LRM_TRANSPORT_SOFTWARE ->
      WinUwp.device_name r = "Microsoft GS Wavetable Synth").
Proof.
  unfold WinUwp.get_device_info_from_port_id.
  destruct (WinUwp.winrt_id_to_pnp_instance_id portId) as [|u us];
    [simpl; repeat split; auto; discriminate|].
  destruct (locate (u :: us)) as [d|]; [|simpl; repeat split; auto; discriminate].
  pose proof (usb_parent_loop_cases 10 tree d) as Hc.
  fold (WinUwp.cfgmgr_get_usb_parent_info tree d) in Hc.
  cbv zeta.
  destruct (String.eqb (WinUwp.device_name (WinUwp.cfgmgr_get_usb_parent_info tree d)) "")
    eqn:En.
  - destruct (WinUwp.contains _ _).
    + simpl. repeat split; auto; discriminate.
    + apply String.eqb_eq in En.
      destruct Hc as [Hc | [Hc | Hc]].
      * rewrite Hc. simpl. repeat split; auto; discriminate.
      * rewrite Hc. repeat split; auto; discriminate.
      * rewrite Hc. repeat split; auto; discriminate.
  - apply String.eqb_neq in En.
    destruct Hc as [Hc | [Hc | Hc]].
    + rewrite Hc in En. contradiction.
    + rewrite Hc. repeat split; auto; discriminate.
    + rewrite Hc. repeat split; auto; discriminate.
Qed.

Lemma device_info_classification_witness :
  WinUwp.device_name
    (WinUwp.get_device_info_from_port_id usb_tree (fun _ => None)
       (WinUwp.wide_of "\\?\SWD#MMDEVAPI#MIDII_60E5#{504be32c-ccf6}")) = "".
Proof.
  apply (proj1 (proj2 (device_info_classification usb_tree (fun _ => None)
           (WinUwp.wide_of "\\?\SWD#MMDEVAPI#MIDII_60E5#{504be32c-ccf6}")))).
  reflexivity.
Defined.

(** ** Plugging and unplugging one device *)

Lemma spec_removed_one (cache : list port_information) (p : port_information) :
  port_key p ∉ map port_key cache -> spec_removed (cache ++ [p]) cache = [p].
Proof.
  intros Hp. unfold spec_removed. rewrite filter_app.
  rewrite (filter_nil_all _ cache).
  - rewrite filter_cons_True by assumption. reflexivity.
  - intros q Hq Hn. apply Hn, list_elem_of_fmap. eauto.
Qed.

(** X26.  With the four callbacks configured, plugging in one input
    port with a new key and unplugging it again is reported as exactly
    one input-added and then exactly one input-removed callback for that
    port, and the observer ends as it started. *)
Theorem plug_unplug_round_trip (o : observer) (w1 w2 : jni) (p : port_information) :
  configuration o = mk_conf true true true true (notify_in_constructor (configuration o)) ->
  port_key p ∉ map port_key (cached_inputs o) ->
  get_input_ports w1 = cached_inputs o ++ [p] ->
  get_output_ports w1 = cached_outputs o ->
  get_input_ports w2 = cached_inputs o ->
  get_output_ports w2 = cached_outputs o ->
  snd (on_device_added o w1) = [InputAdded p]
  /\ snd (on_device_removed (fst (on_device_added o w1)) w2) = [InputRemoved p]
  /\ fst (on_device_removed (fst (on_device_added o w1)) w2) = o.
Proof.
  intros Hconf Hp Hi1 Ho1 Hi2 Ho2.
  rewrite (on_device_removed_eq (fst _)), (on_device_added_eq o). simpl.
  rewrite Hconf. simpl. rewrite Hi1, Ho1, Hi2, Ho2.
  rewrite spec_added_one, spec_added_self, spec_removed_one, spec_removed_self
    by assumption.
  split; [reflexivity|]. split; [reflexivity|].
  destruct o as [c mm dc ci co]. simpl in *. now rewrite Hconf.
Qed.

Lemma plug_unplug_round_trip_witness :
  snd (on_device_added android_observer world_with_pad) = [InputAdded pad_port]
  /\ snd (on_device_removed (fst (on_device_added android_observer world_with_pad))
                            world_before) = [InputRemoved pad_port]
  /\ fst (on_device_removed (fst (on_device_added android_observer world_with_pad))
                            world_before) = android_observer.
Proof.
  apply (plug_unplug_round_trip android_observer world_with_pad world_before pad_port).
  - reflexivity.
  - vm_compute. intros H. apply elem_of_cons in H as [H|H]; [discriminate|].
    now apply elem_of_nil in H.
  - reflexivity.
  - reflexivity.
  - reflexivity.
  - reflexivity.
Defined.
